(** * AliCloud OSS binding (bindings/alicloud/oss/oss.go)

    A shallow embedding of the binding and the properties of its four
    operations.  The object-storage SDK, the random source and the JSON
    text parser are the environment: they are an arbitrary state machine
    [Env W] over a world [W], and every call the binding makes to them is
    recorded in a trace. *)

From Stdlib Require Import ZArith NArith Ascii String List Lia Bool.
From stdpp Require Import base option list gmap strings sorting.

Local Open Scope string_scope.
Set Warnings "-register-all".

(** ** Go values *)

(** A Go [[]byte]. *)
Abbreviation bytes := (list Byte.byte).

(** A Go [error] value.  [oss.ServiceError] is the SDK's struct (passed by
    value); [Errorf prefix err] is [fmt.Errorf(prefix + "%w", err)];
    [ErrorString] is an error that wraps nothing. *)
Inductive error : Type :=
| ServiceError (StatusCode : Z) (Code : string) (Message : string)
| ErrorString (msg : string)
| Errorf (prefix : string) (wrapped : error).

(** The [Error()] method.  The SDK's text for a service error is cut
    down to the code and the message. *)
Fixpoint Error_msg (e : error) : string :=
  match e with
  | ServiceError sc code msg =>
      "oss: service returned error: ErrorCode=" ++ code ++ ", ErrorMessage=" ++ msg
  | ErrorString msg => msg
  | Errorf prefix wrapped => prefix ++ Error_msg wrapped
  end.

(** [errors.Unwrap]. *)
Definition Unwrap (e : error) : option error :=
  match e with
  | Errorf _ wrapped => Some wrapped
  | _ => None
  end.

(** The type assertion [err.(oss.ServiceError)]: it looks at the dynamic
    type of [err] itself, never through a wrapper. *)
Definition as_ServiceError (e : error) : option (Z * string) :=
  match e with
  | ServiceError sc code _ => Some (sc, code)
  | _ => None
  end.

(** ** encoding/json, as far as the binding uses it

    The binding never looks at JSON text: it marshals a
    [map[string]string] and unmarshals into two structs.  A document is
    kept as its sequence of members, in their order in the text. *)

Inductive number : Type :=
| NInt (z : Z)              (* an integer literal *)
| NFrac (lit : string).     (* a literal with a fraction or an exponent *)

Inductive json : Type :=
| JNull
| JBool (b : bool)
| JNumber (n : number)
| JString (s : string)
| JArray (l : list json)
| JObject (members : list (string * json)).

Definition byte_val (c : ascii) : N := N_of_ascii c.

(** Go compares strings byte by byte. *)
Fixpoint string_leb (s t : string) : bool :=
  match s, t with
  | EmptyString, _ => true
  | String _ _, EmptyString => false
  | String a s', String b t' =>
      if (byte_val a <? byte_val b)%N then true
      else if (byte_val b <? byte_val a)%N then false
      else string_leb s' t'
  end.

Definition key_le (a b : string * string) : Prop := string_leb a.1 b.1 = true.

#[global] Instance key_le_dec : RelDecision key_le.
Proof. intros a b. unfold key_le. apply _. Defined.

Module utf8.

(** [utf8.DecodeRuneInString], reduced to what its callers here need:
    the width of the well-formed sequence at the head of [s], or [None]
    where Go answers [(RuneError, 1)]. *)
Definition in_range (lo hi : N) (c : ascii) : bool :=
  ((lo <=? byte_val c) && (byte_val c <=? hi))%N.

Definition cont (c : ascii) : bool := in_range 128 191 c.

Definition width (s : string) : option nat :=
  match s with
  | EmptyString => None
  | String s0 r0 =>
      let x := byte_val s0 in
      if (x <? 128)%N then Some 1%nat
      else if (x <? 194)%N then None
      else if (x <? 224)%N then
        match r0 with
        | String s1 _ => if cont s1 then Some 2%nat else None
        | _ => None
        end
      else if (x <? 240)%N then
        let (lo, hi) := if (x =? 224)%N then (160, 191)%N
                        else if (x =? 237)%N then (128, 159)%N
                        else (128, 191)%N in
        match r0 with
        | String s1 (String s2 _) =>
            if in_range lo hi s1 && cont s2 then Some 3%nat else None
        | _ => None
        end
      else if (x <? 245)%N then
        let (lo, hi) := if (x =? 240)%N then (144, 191)%N
                        else if (x =? 244)%N then (128, 143)%N
                        else (128, 191)%N in
        match r0 with
        | String s1 (String s2 (String s3 _)) =>
            if in_range lo hi s1 && cont s2 && cont s3 then Some 4%nat else None
        | _ => None
        end
      else None
  end.

(** U+FFFD, the replacement character, in UTF-8. *)
Definition RuneError : string :=
  String (ascii_of_N 239) (String (ascii_of_N 191) (String (ascii_of_N 189) EmptyString)).

(** U+212A (Kelvin sign) and U+017F (long s), in UTF-8. *)
Definition kelvin : string :=
  String (ascii_of_N 226) (String (ascii_of_N 132) (String (ascii_of_N 170) EmptyString)).
Definition smallLongEss : string :=
  String (ascii_of_N 197) (String (ascii_of_N 191) EmptyString).

(** [ValidString]: the string is a sequence of well-formed
    sequences.  [pending] counts the continuation bytes still to skip. *)
Fixpoint valid_from (pending : nat) (s : string) : bool :=
  match s with
  | EmptyString => true
  | String c rest =>
      match pending with
      | S k => valid_from k rest
      | O =>
          match width s with
          | Some n => valid_from (Nat.pred n) rest
          | None => false
          end
      end
  end.

Definition ValidString (s : string) : bool := valid_from 0 s.

End utf8.

(** What a Go string becomes when it is written as a JSON string and read
    back: every byte that does not start a well-formed UTF-8 sequence is
    replaced by U+FFFD, everything else is kept.  [pending] counts the
    continuation bytes of the sequence being copied. *)
Fixpoint coerce_from (pending : nat) (s : string) : string :=
  match s with
  | EmptyString => EmptyString
  | String c rest =>
      match pending with
      | S k => String c (coerce_from k rest)
      | O =>
          match utf8.width s with
          | Some n => String c (coerce_from (Nat.pred n) rest)
          | None => utf8.RuneError ++ coerce_from 0 rest
          end
      end
  end.

Definition json_string (s : string) : string := coerce_from 0 s.

Definition encode_entry (kv : string * string) : string * json :=
  (json_string kv.1, JString (json_string kv.2)).

(** [json.Marshal] of a [map[string]string]: the members are written in
    the byte order of the keys.  It has no error case. *)
Definition Marshal_map (m : gmap string string) : json :=
  JObject (encode_entry <$> merge_sort key_le (map_to_list m)).

Fixpoint strip_prefix (p t : string) : option string :=
  match p with
  | EmptyString => Some t
  | String a p' =>
      match t with
      | EmptyString => None
      | String b t' => if (a =? b)%char then strip_prefix p' t' else None
      end
  end.

Definition is_k (c : ascii) : bool := (c =? "k")%char || (c =? "K")%char.
Definition is_s (c : ascii) : bool := (c =? "s")%char || (c =? "S")%char.

(** The decoder's comparison of a struct field name [s] with a member name
    [t] that is not byte-equal to it ([equalFoldRight]): ASCII letters
    match in either case, and U+212A and U+017F match k and s.  On a
    name of ASCII letters the decoder's other comparisons agree with
    this one. *)
Fixpoint equalFold (s t : string) : bool :=
  match s with
  | EmptyString => match t with EmptyString => true | _ => false end
  | String sb s' =>
      match t with
      | EmptyString => false
      | String tb t' =>
          if (byte_val tb <? 128)%N then
            if (sb =? tb)%char then equalFold s' t'
            else
              let sbUpper := N.land (byte_val sb) 223 in
              if ((65 <=? sbUpper) && (sbUpper <=? 90))%N
              then if (sbUpper =? N.land (byte_val tb) 223)%N
                   then equalFold s' t' else false
              else false
          else if is_s sb then
            match strip_prefix utf8.smallLongEss t with
            | Some t'' => equalFold s' t''
            | None => false
            end
          else if is_k sb then
            match strip_prefix utf8.kelvin t with
            | Some t'' => equalFold s' t''
            | None => false
            end
          else false
      end
  end.

(** The field a member name selects: the field of exactly that name, or
    else the first field whose name folds to it. *)
Definition find_field {F : Type} (fields : list (string * F)) (key : string) : option F :=
  match List.find (λ f, String.eqb f.1 key) fields with
  | Some f => Some f.2
  | None => snd <$> List.find (λ f, equalFold f.1 key) fields
  end.

(** Strings of ASCII bytes only, as the tags of the two structs are. *)
Fixpoint all_ascii (s : string) : bool :=
  match s with
  | EmptyString => true
  | String c rest => (byte_val c <? 128)%N && all_ascii rest
  end.

(** The decoder keeps the first error and goes on. *)
Definition saveError (saved : option error) (e : error) : option error :=
  match saved with
  | Some _ => saved
  | None => Some e
  end.

Definition UnmarshalTypeError (what : string) : error :=
  ErrorString ("json: cannot unmarshal " ++ what).

(** ** The binding's types *)

Definition metadataKey : string := "key".
Definition maxKeys : Z := 1000.

Record ossMetadata : Type := {
  Endpoint : string;
  AccessKeyID : string;
  AccessKey : string;
  Bucket : string
}.

Definition ossMetadata_zero : ossMetadata :=
  {| Endpoint := ""; AccessKeyID := ""; AccessKey := ""; Bucket := "" |}.

Inductive ossField : Type := FEndpoint | FAccessKeyID | FAccessKey | FBucket.

(** The [json:"..."] tags of [ossMetadata], in declaration order. *)
Definition ossMetadata_fields : list (string * ossField) :=
  [("endpoint", FEndpoint); ("accessKeyID", FAccessKeyID);
   ("accessKey", FAccessKey); ("bucket", FBucket)].

Definition ossMetadata_get (f : ossField) (m : ossMetadata) : string :=
  match f with
  | FEndpoint => Endpoint m
  | FAccessKeyID => AccessKeyID m
  | FAccessKey => AccessKey m
  | FBucket => Bucket m
  end.

Definition ossMetadata_set (f : ossField) (v : string) (m : ossMetadata) : ossMetadata :=
  match f with
  | FEndpoint =>
      {| Endpoint := v; AccessKeyID := AccessKeyID m; AccessKey := AccessKey m; Bucket := Bucket m |}
  | FAccessKeyID =>
      {| Endpoint := Endpoint m; AccessKeyID := v; AccessKey := AccessKey m; Bucket := Bucket m |}
  | FAccessKey =>
      {| Endpoint := Endpoint m; AccessKeyID := AccessKeyID m; AccessKey := v; Bucket := Bucket m |}
  | FBucket =>
      {| Endpoint := Endpoint m; AccessKeyID := AccessKeyID m; AccessKey := AccessKey m; Bucket := v |}
  end.

#[global] Instance ossField_eq_dec : EqDecision ossField.
Proof. solve_decision. Defined.

(** The tag of a field. *)
Definition tag (f : ossField) : string :=
  match f with
  | FEndpoint => "endpoint"
  | FAccessKeyID => "accessKeyID"
  | FAccessKey => "accessKey"
  | FBucket => "bucket"
  end.

(** The field that a member named [key] selects. *)
Definition selects (key : string) : option ossField :=
  find_field ossMetadata_fields key.

(** One member of the object being decoded into an [ossMetadata]. *)
Definition ossMetadata_member (st : ossMetadata * option error) (kv : string * json)
  : ossMetadata * option error :=
  match find_field ossMetadata_fields kv.1 with
  | None => st
  | Some f =>
      match kv.2 with
      | JString v => (ossMetadata_set f v st.1, st.2)
      | JNull => st
      | _ => (st.1, saveError st.2 (UnmarshalTypeError "value into Go struct field of type string"))
      end
  end.

(** The struct after the members that [json.Marshal] writes for the
    entries [l]. *)
Definition decode_entries (l : list (string * string)) (m : ossMetadata) : ossMetadata :=
  (fold_left ossMetadata_member (encode_entry <$> l) (m, None)).1.

(** [json.Unmarshal(b, &m)] for [m] of type [ossMetadata]. *)
Definition Unmarshal_ossMetadata (doc : json) (m : ossMetadata) : ossMetadata * option error :=
  match doc with
  | JObject members => fold_left ossMetadata_member members (m, None)
  | JNull => (m, None)
  | _ => (m, Some (UnmarshalTypeError "value into Go value of type oss.ossMetadata"))
  end.

(** [parseMetadata]: its argument is [metadata.Properties]. *)
Definition parseMetadata (Properties : gmap string string) : option ossMetadata * option error :=
  let b := Marshal_map Properties in
  let '(m, err) := Unmarshal_ossMetadata b ossMetadata_zero in
  match err with
  | Some e => (None, Some e)
  | None => (Some m, None)
  end.

(** The property map of the repository's test of [parseMetadata]. *)
Definition test_properties : gmap string string :=
  {[ "AccessKey" := "key"; "Endpoint" := "endpoint";
     "AccessKeyID" := "accessKeyID"; "Bucket" := "test" ]}.

Record listPayload : Type := {
  Marker : string;
  Prefix : string;
  MaxKeys : Z;          (* int32 *)
  Delimiter : string
}.

Definition listPayload_zero : listPayload :=
  {| Marker := ""; Prefix := ""; MaxKeys := 0; Delimiter := "" |}.

Inductive listField : Type := FMarker | FPrefix | FMaxKeys | FDelimiter.

(** The [json:"..."] tags of [listPayload], in declaration order. *)
Definition listPayload_fields : list (string * listField) :=
  [("marker", FMarker); ("prefix", FPrefix);
   ("maxkeys", FMaxKeys); ("delimiter", FDelimiter)].

Definition set_Marker (v : string) (p : listPayload) : listPayload :=
  {| Marker := v; Prefix := Prefix p; MaxKeys := MaxKeys p; Delimiter := Delimiter p |}.
Definition set_Prefix (v : string) (p : listPayload) : listPayload :=
  {| Marker := Marker p; Prefix := v; MaxKeys := MaxKeys p; Delimiter := Delimiter p |}.
Definition set_MaxKeys (v : Z) (p : listPayload) : listPayload :=
  {| Marker := Marker p; Prefix := Prefix p; MaxKeys := v; Delimiter := Delimiter p |}.
Definition set_Delimiter (v : string) (p : listPayload) : listPayload :=
  {| Marker := Marker p; Prefix := Prefix p; MaxKeys := MaxKeys p; Delimiter := v |}.

Definition int32_min : Z := - 2 ^ 31.
Definition int32_max : Z := 2 ^ 31 - 1.

(** One member of the object being decoded into a [listPayload].  A
    number goes into the int32 field when it is an integer literal in
    range; [null] leaves any field as it is. *)
Definition listPayload_member (st : listPayload * option error) (kv : string * json)
  : listPayload * option error :=
  match find_field listPayload_fields kv.1 with
  | None => st
  | Some FMaxKeys =>
      match kv.2 with
      | JNumber (NInt z) =>
          if ((int32_min <=? z) && (z <=? int32_max))%Z
          then (set_MaxKeys z st.1, st.2)
          else (st.1, saveError st.2 (UnmarshalTypeError "number into Go struct field listPayload.maxkeys of type int32"))
      | JNull => st
      | _ => (st.1, saveError st.2 (UnmarshalTypeError "value into Go struct field listPayload.maxkeys of type int32"))
      end
  | Some f =>
      match kv.2 with
      | JString v =>
          (match f with
           | FMarker => set_Marker v
           | FPrefix => set_Prefix v
           | _ => set_Delimiter v
           end st.1, st.2)
      | JNull => st
      | _ => (st.1, saveError st.2 (UnmarshalTypeError "value into Go struct field of type string"))
      end
  end.

(** [json.Unmarshal(data, &payload)] once [data] has been parsed; [None]
    is text that is not JSON. *)
Definition Unmarshal_listPayload (doc : option json) (p : listPayload)
  : listPayload * option error :=
  match doc with
  | None => (p, Some (ErrorString "invalid character looking for beginning of value"))
  | Some (JObject members) => fold_left listPayload_member members (p, None)
  | Some JNull => (p, None)
  | Some _ => (p, Some (UnmarshalTypeError "value into Go value of type oss.listPayload"))
  end.

(** ** package bindings *)

Module bindings.

(** Modelled from the spec: the operation names, the request and the
    response of package bindings (a package of this repository that is
    absent from src/).  The spec gives the operations as create, get,
    delete and list, the request as operation, data and metadata, and
    the response as data and metadata. *)
Definition OperationKind : Type := string.
Definition CreateOperation : OperationKind := "create".
Definition GetOperation : OperationKind := "get".
Definition DeleteOperation : OperationKind := "delete".
Definition ListOperation : OperationKind := "list".

Record InvokeRequest : Type := {
  Data : bytes;
  Metadata : gmap string string;
  Operation : OperationKind
}.

(** The response's fields are [Data] and [Metadata] in Go. *)
Record InvokeResponse : Type := {
  RData : bytes;
  RMetadata : gmap string string
}.

(** [&bindings.InvokeResponse{}] *)
Definition InvokeResponse_zero : InvokeResponse :=
  {| RData := []; RMetadata := ∅ |}.

End bindings.
Import bindings.

(** ** The SDK (package oss of aliyun-oss-go-sdk) and the other
    collaborators, as the environment *)

Module oss.

(** Handles of the SDK's objects. *)
Definition Client : Type := N.
Definition Bucket : Type := N.
Definition Body : Type := N.       (* the io.ReadCloser of GetObject *)

Inductive Option : Type :=
| Meta (k v : string)
| Prefix (s : string)
| Marker (s : string)
| MaxKeys (n : Z)
| Delimiter (s : string).

Definition Header : Type := gmap string (list string).

Record ListObjectsResult : Type := {
  Objects : list string;
  IsTruncated : bool;
  NextMarker : string
}.

End oss.

(** Every call that leaves the binding. *)
Inductive Event : Type :=
| CallNew (endpoint accessKeyID accessKey : string)
| CallBucket (c : oss.Client) (name : string)
| CallPutObject (b : oss.Bucket) (key : string) (data : bytes) (options : list oss.Option)
| CallGetObject (b : oss.Bucket) (key : string)
| CallReadAll (body : oss.Body)
| CallClose (body : oss.Body)
| CallGetObjectDetailedMeta (b : oss.Bucket) (key : string)
| CallDeleteObject (b : oss.Bucket) (key : string)
| CallListObjects (b : oss.Bucket) (options : list oss.Option)
| CallRandRead (n : nat)
| CallDebugf (msg : string).

(** The environment over a world [W].  Every SDK function returns what
    its Go signature returns: a pair of a possibly nil value and a
    possibly nil error. *)
Record Env (W : Type) : Type := {
  oss_New : string → string → string → W → (option oss.Client * option error) * W;
  client_Bucket : oss.Client → string → W → (option oss.Bucket * option error) * W;
  bucket_PutObject : oss.Bucket → string → bytes → list oss.Option → W → option error * W;
  bucket_GetObject : oss.Bucket → string → W → (option oss.Body * option error) * W;
  bucket_GetObjectDetailedMeta : oss.Bucket → string → W → (oss.Header * option error) * W;
  bucket_DeleteObject : oss.Bucket → string → W → option error * W;
  bucket_ListObjects : oss.Bucket → list oss.Option → W → (oss.ListObjectsResult * option error) * W;
  body_ReadAll : oss.Body → W → (bytes * option error) * W;
  body_Close : oss.Body → W → option error * W;
  (** the random source: up to [n] bytes *)
  rand_Read : nat → W → bytes * W;
  (** the JSON text parser *)
  json_parse : bytes → option json;
  (** [json.Marshal] of a listing *)
  json_Marshal_result : oss.ListObjectsResult → bytes * option error
}.

Arguments oss_New {W}.
Arguments client_Bucket {W}.
Arguments bucket_PutObject {W}.
Arguments bucket_GetObject {W}.
Arguments bucket_GetObjectDetailedMeta {W}.
Arguments bucket_DeleteObject {W}.
Arguments bucket_ListObjects {W}.
Arguments body_ReadAll {W}.
Arguments body_Close {W}.
Arguments rand_Read {W}.
Arguments json_parse {W}.
Arguments json_Marshal_result {W}.

(** ** Running Go code against the environment *)

Record State (W : Type) : Type := { world : W; trace : list Event }.
Arguments world {W}.
Arguments trace {W}.
Arguments Build_State {W}.

Inductive result (A : Type) : Type :=
| Returns (a : A)
| Panics (why : string).
Arguments Returns {A}.
Arguments Panics {A}.

Definition Go (W A : Type) : Type := State W → result A * State W.

Section GoMonad.
Context {W : Type}.

Definition go_ret {A} (a : A) : Go W A := λ st, (Returns a, st).

Definition go_bind {A B} (f : A → Go W B) (m : Go W A) : Go W B :=
  λ st, match m st with
        | (Returns a, st') => f a st'
        | (Panics why, st') => (Panics why, st')
        end.

Definition panic {A} (why : string) : Go W A := λ st, (Panics why, st).

(** A call into the environment: it is recorded, then made. *)
Definition call {A} (ev : Event) (f : W → A * W) : Go W A :=
  λ st, let (a, w') := f (world st) in
        (Returns a, {| world := w'; trace := trace st ++ [ev] |}).

(** [defer d] in front of [body]: [d] runs when [body] is left, by a
    return or by a panic. *)
Definition defer {A} (d : Go W unit) (body : Go W A) : Go W A :=
  λ st, let (r, st') := body st in
        match d st' with
        | (Returns _, st'') => (r, st'')
        | (Panics why, st'') => (Panics why, st'')
        end.

End GoMonad.

#[global] Instance Go_ret {W} : MRet (Go W) := λ A, go_ret.
#[global] Instance Go_bind {W} : MBind (Go W) := λ A B, go_bind.


Definition is_PutObject (ev : Event) : bool :=
  match ev with
  | CallPutObject _ _ _ _ => true
  | _ => false
  end.

Definition nil_dereference : string :=
  "runtime error: invalid memory address or nil pointer dereference".

(** ** Key generation *)

Module hex.

(** encoding/hex, as [uuid.String] uses it. *)
Definition hextable : string := "0123456789abcdef".

Definition digit (n : N) : ascii :=
  match String.get (N.to_nat n) hextable with
  | Some c => c
  | None => "0"%char
  end.

(** [hex.Encode]: two digits for every byte, high half first. *)
Fixpoint Encode (src : bytes) : string :=
  match src with
  | [] => EmptyString
  | v :: rest =>
      let n := Byte.to_N v in
      String (digit (N.shiftr n 4)) (String (digit (N.land n 15)) (Encode rest))
  end.

End hex.

Module uuid.

(** Modelled from the spec: the identifier generator
    [uuid.New().String()] of package github.com/google/uuid, which is
    absent from src/.  The spec asks for a fresh random unique
    identifier that is never empty; this is the generator's version 4
    identifier, 16 bytes of the random source with the version and
    variant bits set, printed as five groups of hexadecimal digits. *)
Definition UUID : Type := bytes.

Definition byte_of_N (n : N) : Byte.byte :=
  match Byte.of_N (n mod 256) with
  | Some b => b
  | None => Byte.x00
  end.

Definition update (i : nat) (f : N → N) (u : UUID) : UUID :=
  match u !! i with
  | Some b => <[i := byte_of_N (f (Byte.to_N b))]> u
  | None => u
  end.

Definition setVersion4 (u : UUID) : UUID :=
  let u := update 6 (λ b, N.lor (N.land b 15) 64) u in     (* version 4 *)
  update 8 (λ b, N.lor (N.land b 63) 128) u.               (* variant 10 *)

(** [NewRandom]: [io.ReadFull] fails on a short read. *)
Definition NewRandom {W} (env : Env W) : Go W (option UUID * option error) :=
  buf ← call (CallRandRead 16) (rand_Read env 16);
  if (length buf <? 16)%nat
  then mret (None, Some (ErrorString "unexpected EOF"))
  else
    mret (Some (setVersion4 (take 16 buf)), None).

(** [New] is [Must(NewRandom())]. *)
Definition New {W} (env : Env W) : Go W UUID :=
  r ← NewRandom env;
  match r with
  | (Some u, None) => mret u
  | (_, Some e) => panic (Error_msg e)
  | (None, None) => panic nil_dereference
  end.

(** [String]: xxxxxxxx-xxxx-xxxx-xxxx-xxxxxxxxxxxx *)
Definition String (u : UUID) : string :=
  hex.Encode (take 4 u) ++ "-" ++
  hex.Encode (take 2 (drop 4 u)) ++ "-" ++
  hex.Encode (take 2 (drop 6 u)) ++ "-" ++
  hex.Encode (take 2 (drop 8 u)) ++ "-" ++
  hex.Encode (drop 10 u).

End uuid.

(** ** The binding *)

Record AliCloudOSS : Type := {
  metadata : option ossMetadata;     (* *ossMetadata, nil until Init *)
  client : option oss.Client;        (* *oss.Client, nil until Init *)
  logger : option string             (* logger.Logger, by its name *)
}.

(** [NewAliCloudOSS] *)
Definition NewAliCloudOSS (logger : option string) : AliCloudOSS :=
  {| metadata := None; client := None; logger := logger |}.

(** [strings.Join] *)
Fixpoint strings_Join (elems : list string) (sep : string) : string :=
  match elems with
  | [] => ""
  | [e] => e
  | e :: rest => e ++ sep ++ strings_Join rest sep
  end.

(** [val, ok := req.Metadata[metadataKey]; ok && val != ""] *)
Definition readKey (req : InvokeRequest) : option string :=
  match Metadata req !! metadataKey with
  | Some val => if String.eqb val "" then None else Some val
  | None => None
  end.

Module Binding.
Section Binding.
Context {W : Type} (env : Env W).

Abbreviation Result := (option InvokeResponse * option error)%type.

(** [getClient] *)
Definition getClient (metadata : ossMetadata) : Go W (option oss.Client * option error) :=
  '(client, err) ← call (CallNew (Endpoint metadata) (AccessKeyID metadata) (AccessKey metadata))
                        (oss_New env (Endpoint metadata) (AccessKeyID metadata) (AccessKey metadata));
  match err with
  | Some e => mret (None, Some e)
  | None => mret (client, None)
  end.

(** [Init]: the receiver is returned with the error. *)
Definition Init (s : AliCloudOSS) (Properties : gmap string string)
  : Go W (AliCloudOSS * option error) :=
  let '(m, err) := parseMetadata Properties in
  match err with
  | Some e => mret (s, Some e)
  | None =>
      match m with
      | None => panic nil_dereference
      | Some m =>
          '(client, err) ← getClient m;
          match err with
          | Some e => mret (s, Some e)
          | None =>
              mret ({| metadata := Some m; client := client; logger := logger s |}, None)
          end
      end
  end.

(** [Operations] *)
Definition Operations : list OperationKind :=
  [CreateOperation; GetOperation; DeleteOperation; ListOperation].

(** [s.client.Bucket(s.metadata.Bucket)] *)
Definition getBucket (s : AliCloudOSS) : Go W (option oss.Bucket * option error) :=
  match client s, metadata s with
  | Some c, Some m => call (CallBucket c (Bucket m)) (client_Bucket env c (Bucket m))
  | _, _ => panic nil_dereference
  end.

(** [s.logger.Debugf] *)
Definition Debugf (s : AliCloudOSS) (msg : string) : Go W unit :=
  match logger s with
  | Some _ => call (CallDebugf msg) (λ w, (tt, w))
  | None => panic nil_dereference
  end.

(** The loop of [create] over [req.Metadata].  Go does not fix the
    order in which a map is ranged over; the model takes the order of
    [map_to_list]. *)
Definition metaOptions (Metadata : gmap string string) : list oss.Option :=
  fold_left (λ options kv,
               if String.eqb kv.1 "key" then options
               else (options ++ [oss.Meta kv.1 kv.2])%list)
            (map_to_list Metadata) [].

Definition create (s : AliCloudOSS) (req : InvokeRequest) : Go W Result :=
  key ← match readKey req with
        | Some val => mret val
        | None =>
            u ← uuid.New env;
            let key := uuid.String u in
            _ ← Debugf s ("key not found. generating key " ++ key);
            mret key
        end;
  '(bucket, err) ← getBucket s;
  match err with
  | Some e =>
      mret (None, Some (Errorf "alicloud oss binding error: error getting bucket failed : " e))
  | None =>
      let options := metaOptions (Metadata req) in
      match bucket with
      | None => panic nil_dereference
      | Some bucket =>
          err ← call (CallPutObject bucket key (Data req) options)
                     (bucket_PutObject env bucket key (Data req) options);
          match err with
          | Some e =>
              mret (None, Some (Errorf "alicloud oss binding error: error putting object " e))
          | None => mret (Some InvokeResponse_zero, None)
          end
      end
  end.

(** The part of [get] that follows [defer body.Close()]. *)
Definition get_read (bucket : oss.Bucket) (key : string) (body : oss.Body) : Go W Result :=
  '(data, err) ← call (CallReadAll body) (body_ReadAll env body);
  match err with
  | Some e =>
      mret (None, Some (Errorf "alicloud oss binding error: error reading object : " e))
  | None =>
      '(meta, err) ← call (CallGetObjectDetailedMeta bucket key)
                          (bucket_GetObjectDetailedMeta env bucket key);
      match err with
      | Some e =>
          mret (None, Some (Errorf "alicloud oss binding error: error reading metadata : " e))
      | None =>
          let m := (λ v, strings_Join v " ") <$> meta in
          mret (Some {| RData := data; RMetadata := m |}, None)
      end
  end.

(** The part of [get] from [defer body.Close()] on: a nil [body] has no
    [Close] to defer. *)
Definition get_body (bucket : oss.Bucket) (key : string) (body : option oss.Body)
  : Go W Result :=
  match body with
  | None => panic nil_dereference
  | Some body =>
      defer (_ ← call (CallClose body) (body_Close env body); mret tt)
            (get_read bucket key body)
  end.

Definition get (s : AliCloudOSS) (req : InvokeRequest) : Go W Result :=
  match readKey req with
  | None => mret (None, Some (ErrorString "alicloud oss binding error: can't read key value"))
  | Some key =>
      '(bucket, err) ← getBucket s;
      match err with
      | Some e =>
          mret (None, Some (Errorf "alicloud oss binding error: error getting bucket : " e))
      | None =>
          match bucket with
          | None => panic nil_dereference
          | Some bucket =>
              '(body, err) ← call (CallGetObject bucket key) (bucket_GetObject env bucket key);
              match err with
              | Some e =>
                  match as_ServiceError e with
                  | None =>
                      mret (None, Some (Errorf "alicloud oss binding error: error getting object : " e))
                  | Some (StatusCode, Code) =>
                      if (StatusCode =? 404)%Z && String.eqb Code "NoSuchKey"
                      then mret (Some InvokeResponse_zero, None)
                      else get_body bucket key body
                  end
              | None => get_body bucket key body
              end
          end
      end
  end.

Definition delete (s : AliCloudOSS) (req : InvokeRequest) : Go W Result :=
  match readKey req with
  | None => mret (None, Some (ErrorString "alicloud oss binding error: can't read key value"))
  | Some key =>
      '(bucket, err) ← getBucket s;
      match err with
      | Some e =>
          mret (None, Some (Errorf "alicloud oss binding error: error getting bucket : " e))
      | None =>
          match bucket with
          | None => panic nil_dereference
          | Some bucket =>
              err ← call (CallDeleteObject bucket key) (bucket_DeleteObject env bucket key);
              match err with
              | Some e =>
                  mret (None, Some (Errorf "alicloud oss binding error: error deleting : " e))
              | None => mret (Some InvokeResponse_zero, None)
              end
          end
      end
  end.

Definition list (s : AliCloudOSS) (req : InvokeRequest) : Go W Result :=
  '(bucket, err) ← getBucket s;
  match err with
  | Some e =>
      mret (None, Some (Errorf "alicloud oss binding error: error getting bucket : " e))
  | None =>
      let '(payload, err) := Unmarshal_listPayload (json_parse env (Data req)) listPayload_zero in
      match err with
      | Some e =>
          mret (None, Some (Errorf "aliyun oss binding error. list operation. cannot unmarshal json to blobs: " e))
      | None =>
          let payload :=
            if (MaxKeys payload =? 0)%Z then set_MaxKeys maxKeys payload else payload in
          let options := [oss.Prefix (Prefix payload); oss.Marker (Marker payload);
                          oss.MaxKeys (MaxKeys payload); oss.Delimiter (Delimiter payload)] in
          match bucket with
          | None => panic nil_dereference
          | Some bucket =>
              '(result, err) ← call (CallListObjects bucket options)
                                    (bucket_ListObjects env bucket options);
              match err with
              | Some e =>
                  mret (None, Some (Errorf "aliyun oss binding error. error listing objects: " e))
              | None =>
                  let '(jsonResponse, err) := json_Marshal_result env result in
                  match err with
                  | Some e =>
                      mret (None, Some (Errorf "aliyun oss binding error. list operation. cannot marshal blobs to json: " e))
                  | None => mret (Some {| RData := jsonResponse; RMetadata := ∅ |}, None)
                  end
              end
          end
      end
  end.

Definition Invoke (s : AliCloudOSS) (req : InvokeRequest) : Go W Result :=
  if String.eqb (Operation req) CreateOperation then create s req
  else if String.eqb (Operation req) GetOperation then get s req
  else if String.eqb (Operation req) DeleteOperation then delete s req
  else if String.eqb (Operation req) ListOperation then list s req
  else mret (None, Some (ErrorString ("aliyun oss binding error. unsupported operation "
                                        ++ Operation req))).

End Binding.
End Binding.

(** ** An environment to run the binding against: a bucket in memory *)

Module Memory.

Record World : Type := {
  objects : gmap string (bytes * list (string * string));
  bodies : gmap N bytes;         (* the bodies handed out and not yet closed *)
  next_body : N;
  fetch_fault : option error;    (* when set, what GetObject fails with *)
  random : bytes                 (* what the random source still holds *)
}.

Definition with_objects (o : gmap string (bytes * list (string * string))) (w : World) : World :=
  {| objects := o; bodies := bodies w; next_body := next_body w;
     fetch_fault := fetch_fault w; random := random w |}.

Definition with_bodies (b : gmap N bytes) (n : N) (w : World) : World :=
  {| objects := objects w; bodies := b; next_body := n;
     fetch_fault := fetch_fault w; random := random w |}.

Definition with_random (r : bytes) (w : World) : World :=
  {| objects := objects w; bodies := bodies w; next_body := next_body w;
     fetch_fault := fetch_fault w; random := r |}.

Definition NoSuchKey : error :=
  ServiceError 404 "NoSuchKey" "The specified key does not exist.".

Definition metaOf (options : list oss.Option) : list (string * string) :=
  omap (λ o, match o with oss.Meta k v => Some (k, v) | _ => None end) options.

Definition maxKeysOf (options : list oss.Option) : Z :=
  default 100%Z (head (omap (λ o, match o with oss.MaxKeys n => Some n | _ => None end) options)).

Definition prefixOf (options : list oss.Option) : string :=
  default "" (head (omap (λ o, match o with oss.Prefix p => Some p | _ => None end) options)).

Definition data (s : string) : bytes := String.list_byte_of_string s.

Definition same_text (a b : bytes) : bool :=
  bool_decide (Byte.to_N <$> a = Byte.to_N <$> b).

Definition quote : string := String (ascii_of_N 34) EmptyString.

(** Two query texts are enough here: an empty object, and an object
    whose only member is maxkeys with the value 1000. *)
Definition query_empty : bytes := data "{}".
Definition query_1000 : bytes := data ("{" ++ quote ++ "maxkeys" ++ quote ++ ":1000}").

Definition parse (text : bytes) : option json :=
  if same_text text query_empty then Some (JObject [])
  else if same_text text query_1000
       then Some (JObject [("maxkeys", JNumber (NInt 1000))])
  else None.

Definition env : Env World := {|
  oss_New endpoint _ _ w :=
    if String.eqb endpoint "" then ((None, Some (ErrorString "oss: endpoint is empty")), w)
    else ((Some 1%N, None), w);
  client_Bucket _ name w :=
    if String.eqb name "" then ((None, Some (ErrorString "oss: bucket name is empty")), w)
    else ((Some 1%N, None), w);
  bucket_PutObject _ key body options w :=
    (None, with_objects (<[key := (body, metaOf options)]> (objects w)) w);
  bucket_GetObject _ key w :=
    match fetch_fault w with
    | Some e => ((None, Some e), w)
    | None =>
        match objects w !! key with
        | Some (body, _) =>
            ((Some (next_body w), None),
             with_bodies (<[next_body w := body]> (bodies w)) (N.succ (next_body w)) w)
        | None => ((None, Some NoSuchKey), w)
        end
    end;
  bucket_GetObjectDetailedMeta _ key w :=
    match objects w !! key with
    | Some (_, meta) =>
        (((list_to_map ((λ kv : string * string, ("X-Oss-Meta-" ++ kv.1, [kv.2])) <$> meta) : oss.Header), None), w)
    | None => ((∅, Some NoSuchKey), w)
    end;
  bucket_DeleteObject _ key w := (None, with_objects (base.delete key (objects w)) w);
  bucket_ListObjects _ options w :=
    let keys := List.filter (String.prefix (prefixOf options)) (map_to_list (objects w)).*1 in
    (({| oss.Objects := take (Z.to_nat (maxKeysOf options)) keys;
         oss.IsTruncated := (Z.to_nat (maxKeysOf options) <? length keys)%nat;
         oss.NextMarker := "" |}, None), w);
  body_ReadAll body w :=
    match bodies w !! body with
    | Some d => ((d, None), w)
    | None => (([], Some (ErrorString "http: read on closed response body")), w)
    end;
  body_Close body w := (None, with_bodies (base.delete body (bodies w)) (next_body w) w);
  rand_Read n w := (take n (random w), with_random (drop n (random w)) w);
  json_parse := parse;
  json_Marshal_result r := (mjoin (data <$> oss.Objects r), None)
|}.

Definition empty : World :=
  {| objects := ∅; bodies := ∅; next_body := 0; fetch_fault := None;
     random := replicate 64 Byte.x2a |}.

(** A bucket that holds the object of the spec's scenario. *)
Definition stocked : World :=
  with_objects {[ "a.txt" := (data "hello", [("owner", "bob")]) ]} empty.

(** A bucket whose reads are refused. *)
Definition denied : World :=
  {| objects := ∅; bodies := ∅; next_body := 0;
     fetch_fault := Some (ServiceError 403 "AccessDenied" "You have no right to access this object.");
     random := [] |}.

Definition start (w : World) : State World := {| world := w; trace := [] |}.

(** A binding as [Init] leaves it. *)
Definition config : ossMetadata :=
  {| Endpoint := "oss.example.com"; AccessKeyID := "id";
     AccessKey := "secret"; Bucket := "bucket" |}.

Definition binding : AliCloudOSS :=
  {| metadata := Some config; client := Some 1%N; logger := Some "alicloudoss" |}.

(** The properties [config] is parsed from, with one more that no field
    answers to. *)
Definition properties : gmap string string :=
  <["endpoint" := "oss.example.com"]> (<["accessKeyID" := "id"]>
    (<["accessKey" := "secret"]> (<["bucket" := "bucket"]> (<["region" := "cn"]> ∅)))).

Definition request (op : string) (body : bytes) (meta : list (string * string)) : InvokeRequest :=
  {| Data := body; Metadata := list_to_map meta; Operation := op |}.

End Memory.

(** ** What a run may do *)

(** The calls an operation may make for a request: every operation may
    ask for the bucket; a create may draw an identifier and log it when
    the request names no key, and put the request's data under the
    request's key; a get may fetch, read and close the object of the
    request's key and ask for its metadata; a delete may delete the
    object of the request's key; a list may list.  Nothing may build a
    client. *)
Definition calls_of (op : OperationKind) (req : InvokeRequest) (ev : Event) : Prop :=
  match ev with
  | CallNew _ _ _ => False
  | CallBucket _ _ => True
  | CallRandRead _ | CallDebugf _ =>
      op = CreateOperation ∧ readKey req = None
  | CallPutObject _ key data _ =>
      op = CreateOperation ∧ data = Data req
      ∧ ∀ val, readKey req = Some val → key = val
  | CallGetObject _ key | CallGetObjectDetailedMeta _ key =>
      op = GetOperation ∧ readKey req = Some key
  | CallReadAll _ | CallClose _ => op = GetOperation
  | CallDeleteObject _ key =>
      op = DeleteOperation ∧ readKey req = Some key
  | CallListObjects _ _ => op = ListOperation
  end.

Definition binding_prefix (msg : string) : bool :=
  String.prefix "alicloud oss binding error: " msg
  || String.prefix "aliyun oss binding error. " msg.

Definition unsupported_prefix : string :=
  "aliyun oss binding error. unsupported operation ".

(** What a handler returns: a response and no error, or no response and
    an error of the binding that is not the one of an unsupported
    operation. *)
Definition handler_result (r : option InvokeResponse * option error) : Prop :=
  match r with
  | (Some _, None) => True
  | (None, Some e) =>
      binding_prefix (Error_msg e) = true
      ∧ String.prefix unsupported_prefix (Error_msg e) = false
  | _ => False
  end.

(** [m] adds to the trace only events that satisfy [P], and what it
    returns satisfies [Q]. *)
Definition keeps {W A : Type} (P : Event → Prop) (Q : A → Prop) (m : Go W A) : Prop :=
  ∀ st r st', m st = (r, st') →
    (∃ evs, trace st' = (trace st ++ evs)%list ∧ Forall P evs)
    ∧ ∀ a, r = Returns a → Q a.

(** The [MaxKeys] option among the options of a listing call. *)
Definition MaxKeys_of (options : list oss.Option) : list Z :=
  omap (λ o, match o with oss.MaxKeys n => Some n | _ => None end) options.

(** The listing calls of a trace, by their options. *)
Definition listings (evs : list Event) : list (list oss.Option) :=
  omap (λ ev, match ev with CallListObjects _ options => Some options | _ => None end) evs.

(** A call for the bucket made on behalf of the binding [s]: with the
    client of [s], for the bucket of its configuration. *)
Definition configured_call (s : AliCloudOSS) (ev : Event) : Prop :=
  match ev with
  | CallBucket c name =>
      client s = Some c ∧ ∃ m, metadata s = Some m ∧ name = Bucket m
  | _ => True
  end.

(** A value that the decoder accepts for a field of [listPayload]:
    [null] for any field, a string for the three string fields, an
    integer literal within int32 for maxkeys. *)
Definition fits (f : listField) (v : json) : bool :=
  match v with
  | JNull => true
  | JString _ => match f with FMaxKeys => false | _ => true end
  | JNumber (NInt z) =>
      match f with
      | FMaxKeys => ((int32_min <=? z) && (z <=? int32_max))%Z
      | _ => false
      end
  | _ => false
  end.

Definition in_int32 (z : Z) : Prop := (int32_min ≤ z ≤ int32_max)%Z.

(** ** An environment that answers by a script *)

Module Scripted.

(** What each function of the environment answers, whatever it is asked. *)
Record Script : Type := {
  new_answer : option oss.Client * option error;
  bucket_answer : option oss.Bucket * option error;
  put_answer : option error;
  fetch_answer : option oss.Body * option error;
  read_answer : bytes * option error;
  close_answer : option error;
  meta_answer : gmap string (list string) * option error;
  delete_answer : option error;
  list_answer : oss.ListObjectsResult * option error;
  parse_answer : option json;
  marshal_answer : bytes * option error
}.

Definition env (sc : Script) : Env unit := {|
  oss_New _ _ _ w := (new_answer sc, w);
  client_Bucket _ _ w := (bucket_answer sc, w);
  bucket_PutObject _ _ _ _ w := (put_answer sc, w);
  bucket_GetObject _ _ w := (fetch_answer sc, w);
  bucket_GetObjectDetailedMeta _ _ w := (meta_answer sc, w);
  bucket_DeleteObject _ _ w := (delete_answer sc, w);
  bucket_ListObjects _ _ w := (list_answer sc, w);
  body_ReadAll _ w := (read_answer sc, w);
  body_Close _ w := (close_answer sc, w);
  rand_Read n w := (replicate n Byte.x00, w);
  json_parse _ := parse_answer sc;
  json_Marshal_result _ := marshal_answer sc
|}.

(** Everything succeeds; the object is hello with two headers. *)
Definition fine : Script := {|
  new_answer := (Some 1%N, None);
  bucket_answer := (Some 2%N, None);
  put_answer := None;
  fetch_answer := (Some 3%N, None);
  read_answer := (Memory.data "hello", None);
  close_answer := Some (ErrorString "close failed");
  meta_answer := ({[ "Content-Type" := ["text/plain"]; "Vary" := ["Origin"; "Accept"] ]}, None);
  delete_answer := None;
  list_answer := ({| oss.Objects := ["a.txt"]; oss.IsTruncated := false; oss.NextMarker := "" |}, None);
  parse_answer := Some (JObject [("MaxKeys", JNumber (NInt (-5))); ("prefix", JString "a")]);
  marshal_answer := (Memory.data "[a.txt]", None)
|}.

Definition refused : error :=
  ServiceError 403 "AccessDenied" "You have no right to access this object.".

(** The read of the body breaks off. *)
Definition broken_read : Script := {|
  new_answer := new_answer fine; bucket_answer := bucket_answer fine;
  put_answer := None; fetch_answer := fetch_answer fine;
  read_answer := (Memory.data "he", Some (ErrorString "unexpected EOF"));
  close_answer := None; meta_answer := meta_answer fine;
  delete_answer := None; list_answer := list_answer fine;
  parse_answer := parse_answer fine; marshal_answer := marshal_answer fine
|}.

(** The metadata, the delete, the put and the listing are refused. *)
Definition refusing : Script := {|
  new_answer := new_answer fine; bucket_answer := bucket_answer fine;
  put_answer := Some refused; fetch_answer := fetch_answer fine;
  read_answer := read_answer fine;
  close_answer := None; meta_answer := (∅, Some refused);
  delete_answer := Some Memory.NoSuchKey; list_answer := (fst (list_answer fine), Some refused);
  parse_answer := parse_answer fine; marshal_answer := marshal_answer fine
|}.

(** There is no such bucket. *)
Definition no_bucket : Script := {|
  new_answer := new_answer fine;
  bucket_answer := (None, Some (ErrorString "oss: bucket name is invalid"));
  put_answer := None; fetch_answer := fetch_answer fine;
  read_answer := read_answer fine;
  close_answer := None; meta_answer := meta_answer fine;
  delete_answer := None; list_answer := list_answer fine;
  parse_answer := None; marshal_answer := marshal_answer fine
|}.

Definition start : State unit := {| world := tt; trace := [] |}.

Definition keyed (op : string) : InvokeRequest :=
  {| Data := Memory.data "hello";
     Metadata := {[ "key" := "a.txt"; "owner" := "bob" ]};
     Operation := op |}.

End Scripted.

(** * Properties *)

Ltac go_unfold :=
  unfold mbind, mret, Go_bind, Go_ret, go_bind, go_ret, call, panic, defer in *.

(** ** Reading the key *)

Lemma readKey_Some (req : InvokeRequest) (key : string) :
  Metadata req !! "key" = Some key → key ≠ "" → readKey req = Some key.
Proof.
  intros Hk Hne. unfold readKey, metadataKey. rewrite Hk.
  destruct (String.eqb_spec key ""); [contradiction | reflexivity].
Qed.

Lemma readKey_None (req : InvokeRequest) :
  Metadata req !! "key" = None ∨ Metadata req !! "key" = Some "" →
  readKey req = None.
Proof. intros [H | H]; unfold readKey, metadataKey; rewrite H; reflexivity. Qed.

Lemma readKey_inv (req : InvokeRequest) (key : string) :
  readKey req = Some key → Metadata req !! "key" = Some key ∧ key ≠ "".
Proof.
  unfold readKey, metadataKey. destruct (Metadata req !! "key") as [val|]; [|discriminate].
  destruct (String.eqb_spec val ""); [discriminate|]. intros [= ->]. auto.
Qed.

(** ** The options of an upload *)

Lemma metaOptions_filter (Metadata : gmap string string) :
  Binding.metaOptions Metadata =
  (λ kv, oss.Meta kv.1 kv.2) <$> List.filter (λ kv, negb (String.eqb kv.1 "key")) (map_to_list Metadata).
Proof.
  unfold Binding.metaOptions.
  enough (∀ l acc,
    fold_left (λ options (kv : string * string),
                 if String.eqb kv.1 "key" then options
                 else (options ++ [oss.Meta kv.1 kv.2])%list) l acc =
    (acc ++ ((λ kv, oss.Meta kv.1 kv.2) <$> List.filter (λ kv, negb (String.eqb kv.1 "key")) l))%list)
    as H by apply (H _ []).
  induction l as [|kv l IH]; intros acc; simpl.
  - by rewrite app_nil_r.
  - rewrite IH. destruct (String.eqb kv.1 "key"); simpl; [done|].
    by rewrite <- app_assoc.
Qed.

Lemma metaOptions_elem (Metadata : gmap string string) (k v : string) :
  oss.Meta k v ∈ Binding.metaOptions Metadata ↔ k ≠ "key" ∧ Metadata !! k = Some v.
Proof.
  rewrite metaOptions_filter, list_elem_of_fmap. split.
  - intros [[k' v'] [[= -> ->] Hin]]. apply list_elem_of_In, filter_In in Hin.
    destruct Hin as [Hin Hne]. apply list_elem_of_In, elem_of_map_to_list in Hin.
    simpl in Hne. destruct (String.eqb_spec k' "key"); [discriminate | done].
  - intros [Hne Hl]. exists (k, v). split; [done|].
    apply list_elem_of_In, filter_In. split.
    + by apply list_elem_of_In, elem_of_map_to_list.
    + simpl. by destruct (String.eqb_spec k "key").
Qed.

Lemma metaOptions_only_Meta (Metadata : gmap string string) (o : oss.Option) :
  o ∈ Binding.metaOptions Metadata → ∃ k v, o = oss.Meta k v.
Proof.
  rewrite metaOptions_filter, list_elem_of_fmap. intros [[k v] [-> _]]. eauto.
Qed.

(** ** The generated key *)







(** ** Decoding the two structs *)

(** Members that do not select maxkeys leave [MaxKeys] as it is. *)
Lemma listPayload_members_MaxKeys (members : list (string * json))
    (st : listPayload * option error) :
  (∀ kv, kv ∈ members → find_field listPayload_fields kv.1 ≠ Some FMaxKeys) →
  MaxKeys (fold_left listPayload_member members st).1 = MaxKeys st.1.
Proof.
  revert st. induction members as [|kv members IH]; intros st Hno; simpl; [done|].
  rewrite IH by (intros; apply Hno; by right).
  assert (find_field listPayload_fields kv.1 ≠ Some FMaxKeys) as Hkv by (apply Hno; by left).
  unfold listPayload_member.
  destruct (find_field listPayload_fields kv.1) as [[]|]; try done;
    destruct kv.2; done.
Qed.

Lemma ossMetadata_members_no_error (l : list (string * string)) (f g : string → string)
    (m : ossMetadata) :
  (fold_left ossMetadata_member ((λ kv, (f kv.1, JString (g kv.2))) <$> l) (m, None)).2 = None.
Proof.
  revert m. induction l as [|kv l IH]; intros m; simpl; [done|].
  unfold ossMetadata_member at 2. simpl.
  destruct (find_field ossMetadata_fields (f kv.1)); apply IH.
Qed.

(** *** The order of the keys *)

Lemma byte_val_inj (a b : ascii) : byte_val a = byte_val b → a = b.
Proof.
  unfold byte_val. intros H.
  rewrite <- (ascii_N_embedding a), <- (ascii_N_embedding b). by rewrite H.
Qed.

Lemma string_leb_refl (s : string) : string_leb s s = true.
Proof. induction s as [|a s IH]; simpl; [done|]. by rewrite N.ltb_irrefl. Qed.

Lemma string_leb_antisym (s t : string) :
  string_leb s t = true → string_leb t s = true → s = t.
Proof.
  revert t. induction s as [|a s IH]; intros [|b t]; simpl; try done.
  destruct (N.ltb_spec (byte_val a) (byte_val b)), (N.ltb_spec (byte_val b) (byte_val a));
    try done; try lia.
  intros Hst Hts. f_equal; [apply byte_val_inj; lia | by apply IH].
Qed.

Lemma string_leb_trans (s t u : string) :
  string_leb s t = true → string_leb t u = true → string_leb s u = true.
Proof.
  revert t u. induction s as [|a s IH]; intros [|b t] [|c u]; simpl; try done.
  destruct (N.ltb_spec (byte_val a) (byte_val b)), (N.ltb_spec (byte_val b) (byte_val a)),
    (N.ltb_spec (byte_val b) (byte_val c)), (N.ltb_spec (byte_val c) (byte_val b)),
    (N.ltb_spec (byte_val a) (byte_val c)), (N.ltb_spec (byte_val c) (byte_val a));
    try done; try lia.
  apply IH.
Qed.

Lemma string_leb_total (s t : string) :
  string_leb s t = true ∨ string_leb t s = true.
Proof.
  revert t. induction s as [|a s IH]; intros [|b t]; simpl; auto.
  destruct (N.ltb_spec (byte_val a) (byte_val b)), (N.ltb_spec (byte_val b) (byte_val a));
    auto; lia.
Qed.

#[local] Instance key_le_trans : Transitive key_le.
Proof. intros a b c. apply string_leb_trans. Qed.

#[local] Instance key_le_total : Total key_le.
Proof. intros a b. apply string_leb_total. Qed.

(** The members [json.Marshal] writes: the entries of the map, each key
    once, in the order of the keys. *)
Lemma sorted_entries (props : gmap string string) :
  let l := merge_sort key_le (map_to_list props) in
  StronglySorted key_le l ∧ NoDup l.*1 ∧ ∀ k v, (k, v) ∈ l ↔ props !! k = Some v.
Proof.
  intros l. split_and!.
  - apply StronglySorted_merge_sort; apply _.
  - unfold l. rewrite merge_sort_Permutation. apply NoDup_fst_map_to_list.
  - intros k v. unfold l. rewrite merge_sort_Permutation. apply elem_of_map_to_list.
Qed.

(** *** Member names through the encoder

    A key that is not well-formed UTF-8 is not written as it is, but it
    selects the field it would have selected: the tags are ASCII, and
    the two other characters that fold to an ASCII letter are
    well-formed. *)

Lemma width_ascii (c : ascii) (rest : string) :
  (byte_val c < 128)%N → utf8.width (String c rest) = Some 1%nat.
Proof. intros H. unfold utf8.width. by destruct (N.ltb_spec (byte_val c) 128); [|lia]. Qed.

Lemma width_C5 (c2 : ascii) (r : string) :
  utf8.width (String (ascii_of_N 197) (String c2 r)) = if utf8.cont c2 then Some 2%nat else None.
Proof. reflexivity. Qed.

Lemma width_E2 (c2 c3 : ascii) (r : string) :
  utf8.width (String (ascii_of_N 226) (String c2 (String c3 r))) =
  if utf8.in_range 128 191 c2 && utf8.cont c3 then Some 3%nat else None.
Proof. reflexivity. Qed.

Lemma coerce_from_cons (c : ascii) (rest : string) :
  coerce_from 0 (String c rest) =
  match utf8.width (String c rest) with
  | Some n => String c (coerce_from (Nat.pred n) rest)
  | None => utf8.RuneError ++ coerce_from 0 rest
  end.
Proof. reflexivity. Qed.

Lemma eqb_ascii_high (a c : ascii) :
  (byte_val a < 128)%N → (128 ≤ byte_val c)%N → (a =? c)%char = false.
Proof. intros Ha Hc. apply Ascii.eqb_neq. intros ->. lia. Qed.

Lemma coerce_head_high (c : ascii) (rest : string) :
  (128 ≤ byte_val c)%N →
  ∃ c' rest', coerce_from 0 (String c rest) = String c' rest' ∧ (128 ≤ byte_val c')%N.
Proof.
  intros Hc. rewrite coerce_from_cons. destruct (utf8.width (String c rest)).
  - eauto.
  - eexists _, _. split; [reflexivity|]. vm_compute. discriminate.
Qed.

(** The head of what the encoder writes for a string that starts with
    [c1]: [c1] itself, or the head of U+FFFD. *)
Lemma coerce_head (c1 : ascii) (r1 : string) :
  ∃ rest', coerce_from 0 (String c1 r1) = String c1 rest'
         ∨ coerce_from 0 (String c1 r1) = String (ascii_of_N 239) rest'.
Proof.
  rewrite coerce_from_cons. destruct (utf8.width (String c1 r1)); eexists; [by left | by right].
Qed.

Lemma strip_smallLongEss_coerce (key : string) :
  strip_prefix utf8.smallLongEss (coerce_from 0 key)
  = coerce_from 0 <$> strip_prefix utf8.smallLongEss key.
Proof.
  destruct key as [|c1 r1]; [done|].
  destruct (Ascii.eqb_spec (ascii_of_N 197) c1) as [<-|Hc1].
  - destruct r1 as [|c2 r]; [done|].
    rewrite coerce_from_cons, width_C5.
    destruct (utf8.cont c2) eqn:Hcont.
    + cbn [Nat.pred coerce_from utf8.smallLongEss strip_prefix].
      rewrite Ascii.eqb_refl. by destruct (ascii_of_N 191 =? c2)%char.
    + cbn [utf8.smallLongEss strip_prefix]. rewrite Ascii.eqb_refl.
      destruct (Ascii.eqb_spec (ascii_of_N 191) c2) as [<-|]; [discriminate | done].
  - destruct (coerce_head c1 r1) as (rest' & [-> | ->]);
      cbn [utf8.smallLongEss strip_prefix];
      by rewrite ?(proj2 (Ascii.eqb_neq _ _) Hc1).
Qed.

Lemma strip_kelvin_coerce (key : string) :
  strip_prefix utf8.kelvin (coerce_from 0 key)
  = coerce_from 0 <$> strip_prefix utf8.kelvin key.
Proof.
  destruct key as [|c1 r1]; [done|].
  destruct (Ascii.eqb_spec (ascii_of_N 226) c1) as [<-|Hc1].
  - destruct r1 as [|c2 [|c3 r]]; [done | |].
    + cbn [utf8.kelvin strip_prefix]. rewrite Ascii.eqb_refl.
      by destruct (ascii_of_N 132 =? c2)%char.
    + rewrite coerce_from_cons, width_E2.
      destruct (utf8.in_range 128 191 c2 && utf8.cont c3) eqn:Hcont.
      * cbn [Nat.pred coerce_from utf8.kelvin strip_prefix].
        rewrite Ascii.eqb_refl.
        by destruct (ascii_of_N 132 =? c2)%char, (ascii_of_N 170 =? c3)%char.
      * cbn [utf8.kelvin strip_prefix]. rewrite Ascii.eqb_refl.
        destruct (Ascii.eqb_spec (ascii_of_N 132) c2) as [<-|]; [|done].
        destruct (Ascii.eqb_spec (ascii_of_N 170) c3) as [<-|]; [discriminate | done].
  - destruct (coerce_head c1 r1) as (rest' & [-> | ->]);
      cbn [utf8.kelvin strip_prefix];
      by rewrite ?(proj2 (Ascii.eqb_neq _ _) Hc1).
Qed.

Lemma equalFold_high (sb tb : ascii) (s' t' : string) :
  (128 ≤ byte_val tb)%N →
  equalFold (String sb s') (String tb t') =
  if is_s sb then
    match strip_prefix utf8.smallLongEss (String tb t') with
    | Some t'' => equalFold s' t''
    | None => false
    end
  else if is_k sb then
    match strip_prefix utf8.kelvin (String tb t') with
    | Some t'' => equalFold s' t''
    | None => false
    end
  else false.
Proof.
  intros Htb. cbn [equalFold]. by destruct (N.ltb_spec (byte_val tb) 128); [lia|].
Qed.

Lemma equalFold_json_string (t key : string) :
  equalFold t (json_string key) = equalFold t key.
Proof.
  unfold json_string. revert key. induction t as [|sb t IH]; intros key.
  - destruct key as [|c rest]; [done|]. rewrite coerce_from_cons.
    by destruct (utf8.width (String c rest)).
  - destruct key as [|tb rest]; [done|].
    destruct (N.lt_ge_cases (byte_val tb) 128) as [Htb|Htb].
    + rewrite coerce_from_cons, (width_ascii _ _ Htb).
      change (Nat.pred 1) with 0%nat. cbn [equalFold].
      rewrite (proj2 (N.ltb_lt _ _) Htb). by rewrite !IH.
    + destruct (coerce_head_high tb rest Htb) as (c' & rest' & Heq & Hc').
      rewrite Heq, !equalFold_high by done. rewrite <- Heq.
      rewrite strip_smallLongEss_coerce, strip_kelvin_coerce.
      destruct (is_s sb), (is_k sb);
        destruct (strip_prefix utf8.smallLongEss (String tb rest)),
                 (strip_prefix utf8.kelvin (String tb rest)); simpl; by rewrite ?IH.
Qed.

Lemma eqb_json_string (t key : string) :
  all_ascii t = true → String.eqb t (json_string key) = String.eqb t key.
Proof.
  unfold json_string. revert key. induction t as [|a t IH]; intros key Ht.
  - destruct key as [|c rest]; [done|]. rewrite coerce_from_cons.
    by destruct (utf8.width (String c rest)).
  - simpl in Ht. apply andb_true_iff in Ht as [Ha%N.ltb_lt Ht].
    destruct key as [|c rest]; [done|].
    destruct (N.lt_ge_cases (byte_val c) 128) as [Hc|Hc].
    + rewrite coerce_from_cons, (width_ascii _ _ Hc). simpl. by rewrite IH.
    + destruct (coerce_head_high c rest Hc) as (c' & rest' & -> & Hc').
      simpl. by rewrite !eqb_ascii_high.
Qed.

Lemma find_field_json_string {F : Type} (fields : list (string * F)) (key : string) :
  Forall (λ f, all_ascii f.1 = true) fields →
  find_field fields (json_string key) = find_field fields key.
Proof.
  intros Hascii. unfold find_field.
  assert (List.find (λ f : string * F, String.eqb f.1 (json_string key)) fields
          = List.find (λ f : string * F, String.eqb f.1 key) fields) as ->.
  { induction Hascii as [|f fields Hf _ IH]; [done|]. simpl.
    by rewrite (eqb_json_string _ _ Hf), IH. }
  assert (List.find (λ f : string * F, equalFold f.1 (json_string key)) fields
          = List.find (λ f : string * F, equalFold f.1 key) fields) as ->; [|done].
  clear Hascii. induction fields as [|f fields IH]; [done|]. simpl.
  by rewrite equalFold_json_string, IH.
Qed.

Lemma selects_json_string (key : string) : selects (json_string key) = selects key.
Proof.
  apply find_field_json_string. repeat constructor.
Qed.

(** *** One field of the decoded struct *)

Lemma ossMetadata_get_set (f g : ossField) (v : string) (m : ossMetadata) :
  ossMetadata_get f (ossMetadata_set g v m) = if decide (f = g) then v else ossMetadata_get f m.
Proof. destruct f, g; reflexivity. Qed.

Lemma decode_entries_cons (kv : string * string) (l : list (string * string)) (m : ossMetadata) :
  decode_entries (kv :: l) m =
  decode_entries l (match selects kv.1 with
                    | Some f => ossMetadata_set f (json_string kv.2) m
                    | None => m
                    end).
Proof.
  unfold decode_entries. simpl. unfold ossMetadata_member at 2. simpl.
  fold (selects (json_string kv.1)). rewrite selects_json_string.
  by destruct (selects kv.1).
Qed.

(** No member selects the field: it keeps its value. *)
Lemma decode_entries_untouched (l : list (string * string)) (m : ossMetadata) (f : ossField) :
  (∀ kv, kv ∈ l → selects kv.1 ≠ Some f) →
  ossMetadata_get f (decode_entries l m) = ossMetadata_get f m.
Proof.
  revert m. induction l as [|kv l IH]; intros m Hno; [done|].
  rewrite decode_entries_cons, IH by (intros; apply Hno; by right).
  assert (selects kv.1 ≠ Some f) as Hkv by (apply Hno; by left).
  destruct (selects kv.1) as [g|]; [|done].
  rewrite ossMetadata_get_set. case_decide; congruence.
Qed.

(** The field holds the value of the greatest key that selects it. *)
Lemma decode_entries_greatest (l : list (string * string)) (m : ossMetadata) (f : ossField)
    (k v : string) :
  StronglySorted key_le l → NoDup l.*1 →
  (k, v) ∈ l → selects k = Some f →
  (∀ kv, kv ∈ l → selects kv.1 = Some f → string_leb kv.1 k = true) →
  ossMetadata_get f (decode_entries l m) = json_string v.
Proof.
  revert m. induction l as [|kv l IH]; intros m Hsorted Hnodup Hin Hsel Hmax.
  { by apply elem_of_nil in Hin. }
  apply StronglySorted_inv in Hsorted as [Hsorted Hall].
  rewrite fmap_cons in Hnodup. apply NoDup_cons in Hnodup as [Hfresh Hnodup].
  rewrite decode_entries_cons.
  destruct (decide ((k, v) ∈ l)) as [Hl|Hl].
  - apply IH; try done. intros kv' Hkv'. apply Hmax. by right.
  - apply elem_of_cons in Hin as [<-|]; [|done]. simpl in *. rewrite Hsel.
    rewrite decode_entries_untouched.
    + rewrite ossMetadata_get_set. by rewrite decide_True.
    + intros kv' Hkv' Hsel'. apply Hfresh.
      assert (kv'.1 = k) as <-.
      { apply string_leb_antisym.
        - apply Hmax; [by right | done].
        - rewrite Forall_forall in Hall. apply (Hall kv' Hkv'). }
      apply list_elem_of_fmap. eauto.
Qed.

(** Either no member selects the field, or one of them has the greatest key. *)
Lemma selecting_entries (l : list (string * string)) (f : ossField) :
  StronglySorted key_le l →
  (∀ kv, kv ∈ l → selects kv.1 ≠ Some f)
  ∨ (∃ k v, (k, v) ∈ l ∧ selects k = Some f
       ∧ ∀ kv, kv ∈ l → selects kv.1 = Some f → string_leb kv.1 k = true).
Proof.
  induction l as [|[k0 v0] l IH]; intros Hsorted.
  { left. intros kv Hin. by apply elem_of_nil in Hin. }
  apply StronglySorted_inv in Hsorted as [Hsorted Hall].
  rewrite Forall_forall in Hall.
  destruct (IH Hsorted) as [Hno|(k & v & Hin & Hsel & Hmax)].
  - destruct (decide (selects k0 = Some f)) as [Hsel0|Hsel0].
    + right. exists k0, v0. split_and!; [by left | done |].
      intros kv [->|Hkv]%elem_of_cons Hsel; [apply string_leb_refl|].
      by apply Hno in Hkv.
    + left. intros kv [->|Hkv]%elem_of_cons; [done | by apply Hno].
  - right. exists k, v. split_and!; [by right | done |].
    intros kv [->|Hkv]%elem_of_cons Hsel'; [|by apply Hmax].
    apply (Hall (k, v) Hin).
Qed.

Lemma parseMetadata_decode (Properties : gmap string string) :
  parseMetadata Properties =
  (Some (decode_entries (merge_sort key_le (map_to_list Properties)) ossMetadata_zero), None).
Proof.
  unfold parseMetadata, Marshal_map, Unmarshal_ossMetadata, decode_entries.
  pose proof (ossMetadata_members_no_error
                (merge_sort key_le (map_to_list Properties)) json_string json_string
                ossMetadata_zero) as H.
  unfold encode_entry. destruct (fold_left _ _ _) as [m err]. simpl in H. by subst err.
Qed.

Lemma ossMetadata_ext (m1 m2 : ossMetadata) :
  (∀ f, ossMetadata_get f m1 = ossMetadata_get f m2) → m1 = m2.
Proof.
  intros H. destruct m1, m2.
  pose proof (H FEndpoint). pose proof (H FAccessKeyID).
  pose proof (H FAccessKey). pose proof (H FBucket). simpl in *. congruence.
Qed.

Lemma selects_tag (f : ossField) : selects (tag f) = Some f.
Proof. destruct f; vm_compute; reflexivity. Qed.

(** Well-formed UTF-8 goes through the encoder and the decoder unchanged. *)
Lemma coerce_from_valid (pending : nat) (s : string) :
  utf8.valid_from pending s = true → coerce_from pending s = s.
Proof.
  revert pending. induction s as [|c rest IH]; intros pending; [done|].
  destruct pending as [|k].
  - cbn [utf8.valid_from coerce_from]. destruct (utf8.width (String c rest)); [|done].
    intros H. by rewrite IH.
  - cbn [utf8.valid_from coerce_from]. intros H. by rewrite IH.
Qed.

Lemma json_string_valid (s : string) : utf8.ValidString s = true → json_string s = s.
Proof. apply coerce_from_valid. Qed.

(** Parsing a property map has no error case. *)
Lemma parseMetadata_total (Properties : gmap string string) :
  ∃ m, parseMetadata Properties = (Some m, None).
Proof.
  unfold parseMetadata, Marshal_map, Unmarshal_ossMetadata.
  pose proof (ossMetadata_members_no_error
                (merge_sort key_le (map_to_list Properties)) json_string json_string
                ossMetadata_zero) as H.
  unfold encode_entry. destruct (fold_left _ _ _) as [m err]. simpl in H. subst err. eauto.
Qed.

(** The test of the repository: none of its four keys is a tag, and all
    four fields are set. *)
Example TestParseMetadata :
  parseMetadata test_properties =
  (Some {| Endpoint := "endpoint"; AccessKeyID := "accessKeyID";
           AccessKey := "key"; Bucket := "test" |}, None).
Proof. vm_compute. reflexivity. Qed.

(** Of two keys that select one field, the greater one wins, also over
    the tag itself. *)
Example parseMetadata_greater_key_wins :
  parseMetadata {[ "accessKeyID" := "A"; "accesskeyid" := "B" ]} =
  (Some {| Endpoint := ""; AccessKeyID := "B"; AccessKey := ""; Bucket := "" |}, None).
Proof. vm_compute. reflexivity. Qed.

(** C7, as the claim has it, fails: were every field the value of its tag
    in the map, and empty when the tag is missing, the map of the
    repository's test, which holds none of the four tags, would parse to
    four empty fields. *)
Lemma parseMetadata_not_by_tag_only :
  ¬ (∀ Properties : gmap string string,
       ∃ m, parseMetadata Properties = (Some m, None)
            ∧ ∀ f, ossMetadata_get f m = default "" (Properties !! tag f)).
Proof.
  intros H. destruct (H test_properties) as (m & Hm & Hf).
  rewrite TestParseMetadata in Hm. injection Hm as <-.
  specialize (Hf FEndpoint). vm_compute in Hf. discriminate.
Qed.

(** C7, amended: parsing always succeeds; a field whose tag is in the
    map, and which no other key of the map selects, is the value of its
    tag as JSON carries it, which is the value itself when that is
    well-formed UTF-8; a field that no key of the map selects is empty;
    and keys that select no field do not matter. *)
Theorem parseMetadata_fields (Properties : gmap string string) :
  ∃ m, parseMetadata Properties = (Some m, None)
    ∧ (∀ f v,
         Properties !! tag f = Some v →
         (∀ key, is_Some (Properties !! key) → selects key = Some f → key = tag f) →
         ossMetadata_get f m = json_string v
         ∧ (utf8.ValidString v = true → ossMetadata_get f m = v))
    ∧ (∀ f,
         (∀ key, is_Some (Properties !! key) → selects key ≠ Some f) →
         ossMetadata_get f m = "")
    ∧ (∀ Properties' : gmap string string,
         (∀ key, selects key ≠ None → Properties' !! key = Properties !! key) →
         parseMetadata Properties' = (Some m, None)).
Proof.
  destruct (sorted_entries Properties) as (Hs & Hnd & Hin).
  rewrite parseMetadata_decode. eexists. split; [reflexivity|].
  assert (∀ f v,
    Properties !! tag f = Some v →
    (∀ key, is_Some (Properties !! key) → selects key = Some f → key = tag f) →
    ossMetadata_get f
      (decode_entries (merge_sort key_le (map_to_list Properties)) ossMetadata_zero)
    = json_string v) as Hfield.
  { intros f v Hv Honly. apply decode_entries_greatest with (k := tag f); try done.
    - by apply Hin.
    - apply selects_tag.
    - intros [k' v'] Hkv Hsel. simpl in *. apply Hin in Hkv.
      rewrite (Honly k') by eauto. apply string_leb_refl. }
  split_and!.
  - intros f v Hv Honly. split; [by apply Hfield|].
    intros Hvalid. rewrite (Hfield f v) by done. by apply json_string_valid.
  - intros f Hno. rewrite decode_entries_untouched; [by destruct f|].
    intros [k v] Hkv. apply Hno. apply Hin in Hkv. simpl. eauto.
  - intros Properties' Hagree. rewrite parseMetadata_decode. do 2 f_equal.
    destruct (sorted_entries Properties') as (Hs' & Hnd' & Hin').
    assert (∀ f k v, selects k = Some f →
              (k, v) ∈ merge_sort key_le (map_to_list Properties')
              ↔ (k, v) ∈ merge_sort key_le (map_to_list Properties)) as Hsame.
    { intros f k v Hsel. rewrite Hin, Hin', Hagree; [done | congruence]. }
    apply ossMetadata_ext. intros f.
    destruct (selecting_entries _ f Hs) as [Hno|(k & v & Hkv & Hsel & Hmax)].
    + rewrite !decode_entries_untouched; try done.
      intros [k v] Hkv Hsel. simpl in *. apply (Hno (k, v)); [|done].
      by apply (Hsame f k v).
    + rewrite (decode_entries_greatest _ _ f k v Hs Hnd Hkv Hsel Hmax).
      apply decode_entries_greatest with (k := k); try done.
      * by apply (Hsame f k v).
      * intros [k' v'] Hkv' Hsel'. simpl in *. apply (Hmax (k', v')); [|done].
        by apply (Hsame f k' v').
Qed.

Section Properties.
Context {W : Type} (env : Env W).

(** *** Inversion of the steps of a run *)

Lemma bind_Returns {A B} (m : Go W A) (f : A → Go W B) (st st' : State W) (b : B) :
  (m ≫= f) st = (Returns b, st') →
  ∃ a st1, m st = (Returns a, st1) ∧ f a st1 = (Returns b, st').
Proof.
  go_unfold. destruct (m st) as [[a|why] st1]; [eauto | discriminate].
Qed.

Lemma call_inv {A} (ev : Event) (f : W → A * W) (st st' : State W) (r : result A) :
  call ev f st = (r, st') →
  ∃ a w', f (world st) = (a, w') ∧ r = Returns a
          ∧ st' = {| world := w'; trace := (trace st ++ [ev])%list |}.
Proof.
  unfold call. destruct (f (world st)) as [a w']. intros [= <- <-]. eauto.
Qed.

Lemma getBucket_inv (s : AliCloudOSS) (st st' : State W)
    (r : option oss.Bucket * option error) :
  Binding.getBucket env s st = (Returns r, st') →
  ∃ c m w', client s = Some c ∧ metadata s = Some m
            ∧ client_Bucket env c (Bucket m) (world st) = (r, w')
            ∧ st' = {| world := w'; trace := (trace st ++ [CallBucket c (Bucket m)])%list |}.
Proof.
  unfold Binding.getBucket.
  destruct (client s) as [c|], (metadata s) as [m|]; try discriminate.
  intros (a & w' & Hf & [= <-] & ->)%call_inv. eauto 10.
Qed.

(** C1: a Get with a non-empty key whose fetch fails with the service
    error 404 / NoSuchKey returns the empty response, with no data and
    no metadata, and no error, right after the fetch. *)
Theorem get_not_found (s : AliCloudOSS) (req : InvokeRequest) (st : State W)
    (key : string) (c : oss.Client) (m : ossMetadata) (b : oss.Bucket)
    (body : option oss.Body) (msg : string) (w1 w2 : W) :
  Metadata req !! "key" = Some key → key ≠ "" →
  client s = Some c → metadata s = Some m →
  client_Bucket env c (Bucket m) (world st) = ((Some b, None), w1) →
  bucket_GetObject env b key w1 =
    ((body, Some (ServiceError 404 "NoSuchKey" msg)), w2) →
  Binding.get env s req st =
    (Returns (Some InvokeResponse_zero, None),
     {| world := w2;
        trace := trace st ++ [CallBucket c (Bucket m)] ++ [CallGetObject b key] |})
  ∧ RData InvokeResponse_zero = []
  ∧ RMetadata InvokeResponse_zero = ∅.
Proof.
  intros Hk Hne Hc Hm Hb Hg. split; [|split; reflexivity].
  unfold Binding.get. rewrite (readKey_Some _ _ Hk Hne).
  unfold Binding.getBucket. rewrite Hc, Hm. go_unfold. rewrite Hb. simpl.
  rewrite Hg. simpl. by rewrite <- app_assoc.
Qed.

(** A fetch error that is not a service error comes back wrapped, and
    nothing else is called. *)
Lemma get_plain_error (s : AliCloudOSS) (req : InvokeRequest) (st : State W)
    (key : string) (c : oss.Client) (m : ossMetadata) (b : oss.Bucket)
    (body : option oss.Body) (e : error) (w1 w2 : W) :
  Metadata req !! "key" = Some key → key ≠ "" →
  client s = Some c → metadata s = Some m →
  client_Bucket env c (Bucket m) (world st) = ((Some b, None), w1) →
  bucket_GetObject env b key w1 = ((body, Some e), w2) →
  as_ServiceError e = None →
  Binding.get env s req st =
    (Returns (None, Some (Errorf "alicloud oss binding error: error getting object : " e)),
     {| world := w2;
        trace := trace st ++ [CallBucket c (Bucket m)] ++ [CallGetObject b key] |}).
Proof.
  intros Hk Hne Hc Hm Hb Hg He.
  unfold Binding.get. rewrite (readKey_Some _ _ Hk Hne).
  unfold Binding.getBucket. rewrite Hc, Hm. go_unfold. rewrite Hb. simpl.
  rewrite Hg. simpl. rewrite He. by rewrite <- app_assoc.
Qed.

(** A service error other than 404 / NoSuchKey falls out of the error
    block of [get]; with the nil body the SDK returns beside an error,
    [defer body.Close()] panics. *)
Lemma get_service_error (s : AliCloudOSS) (req : InvokeRequest) (st : State W)
    (key : string) (c : oss.Client) (m : ossMetadata) (b : oss.Bucket)
    (sc : Z) (code msg : string) (w1 w2 : W) :
  Metadata req !! "key" = Some key → key ≠ "" →
  client s = Some c → metadata s = Some m →
  client_Bucket env c (Bucket m) (world st) = ((Some b, None), w1) →
  bucket_GetObject env b key w1 = ((None, Some (ServiceError sc code msg)), w2) →
  ¬ (sc = 404%Z ∧ code = "NoSuchKey") →
  Binding.get env s req st =
    (Panics nil_dereference,
     {| world := w2;
        trace := trace st ++ [CallBucket c (Bucket m)] ++ [CallGetObject b key] |}).
Proof.
  intros Hk Hne Hc Hm Hb Hg Hnot.
  unfold Binding.get. rewrite (readKey_Some _ _ Hk Hne).
  unfold Binding.getBucket. rewrite Hc, Hm. go_unfold. rewrite Hb. simpl.
  rewrite Hg. simpl.
  destruct (Z.eqb_spec sc 404) as [->|]; destruct (String.eqb_spec code "NoSuchKey") as [->|];
    simpl; try (by rewrite <- app_assoc).
  exfalso. by apply Hnot.
Qed.


(** C4: a Get or a Delete whose metadata has no key entry, or an empty
    one, returns the missing-key error and calls nothing: the state is
    the one it started in. *)
Theorem get_delete_missing_key (s : AliCloudOSS) (req : InvokeRequest) (st : State W) :
  Metadata req !! "key" = None ∨ Metadata req !! "key" = Some "" →
  Binding.get env s req st =
    (Returns (None, Some (ErrorString "alicloud oss binding error: can't read key value")), st)
  ∧ Binding.delete env s req st =
    (Returns (None, Some (ErrorString "alicloud oss binding error: can't read key value")), st).
Proof.
  intros H. unfold Binding.get, Binding.delete. rewrite (readKey_None _ H). done.
Qed.

(** What [uuid.New] returns, when it returns. *)
Lemma uuid_New_inv (st st' : State W) (u : uuid.UUID) :
  uuid.New env st = (Returns u, st') →
  ∃ buf w', rand_Read env 16 (world st) = (buf, w')
            ∧ (16 ≤ length buf)%nat
            ∧ u = uuid.setVersion4 (take 16 buf)
            ∧ st' = {| world := w'; trace := (trace st ++ [CallRandRead 16])%list |}.
Proof.
  unfold uuid.New. intros ([r e] & st1 & Hr & H)%bind_Returns.
  unfold uuid.NewRandom in Hr.
  apply bind_Returns in Hr as (buf & st2 & (a & w' & Hf & [= <-] & ->)%call_inv & Hr).
  destruct (Nat.ltb_spec (length buf) 16); go_unfold; simplify_eq.
  eauto 10.
Qed.

(** The run of [create] once the key is known. *)
Lemma create_key_inv (s : AliCloudOSS) (req : InvokeRequest) (st st' : State W)
    (resp : option InvokeResponse) :
  Binding.create env s req st = (Returns (resp, None), st') →
  ∃ key st1 c m b w1,
    (match readKey req with
     | Some val => key = val ∧ st1 = st
     | None =>
         ∃ buf w0, rand_Read env 16 (world st) = (buf, w0)
           ∧ (16 ≤ length buf)%nat
           ∧ key = uuid.String (uuid.setVersion4 (take 16 buf))
           ∧ st1 = {| world := w0;
                      trace := (trace st ++ [CallRandRead 16;
                                 CallDebugf ("key not found. generating key " ++ key)])%list |}
     end)
    ∧ client s = Some c ∧ metadata s = Some m
    ∧ client_Bucket env c (Bucket m) (world st1) = ((Some b, None), w1)
    ∧ bucket_PutObject env b key (Data req) (Binding.metaOptions (Metadata req)) w1
      = (None, world st')
    ∧ trace st' = (trace st1 ++ [CallBucket c (Bucket m);
                    CallPutObject b key (Data req) (Binding.metaOptions (Metadata req))])%list
    ∧ resp = Some InvokeResponse_zero.
Proof.
  unfold Binding.create. intros (key & st1 & Hkey & H)%bind_Returns.
  apply bind_Returns in H as ([bucket err] & st2 & Hb & H).
  apply getBucket_inv in Hb as (c & m & w1 & Hc & Hm & Hb & ->).
  destruct err as [e|]; [go_unfold; simplify_eq|].
  destruct bucket as [b|]; [|discriminate].
  apply bind_Returns in H as (err & st3 & (a & w2 & Hput & [= <-] & ->)%call_inv & H).
  destruct err as [e|]; go_unfold; simplify_eq.
  exists key, st1, c, m, b, w1. simpl. split_and!; try done.
  - destruct (readKey req) as [val|].
    + by simplify_eq.
    + apply bind_Returns in Hkey as (u & st2 & Hu & Hkey).
      apply uuid_New_inv in Hu as (buf & w0 & Hrand & Hlen & -> & ->).
      apply bind_Returns in Hkey as ([] & st3 & Hlog & Hkey).
      unfold Binding.Debugf in Hlog. destruct (logger s); [|discriminate].
      apply call_inv in Hlog as (? & ? & [= <- <-] & _ & ->).
      go_unfold. simplify_eq. simpl. exists buf, w0. split_and!; try done.
      by rewrite <- app_assoc.
  - by rewrite <- app_assoc.
Qed.

(** C5: a Create that succeeds has put one object: under the request's
    key when that is present and not empty, with the request's data as
    the body, and with exactly the metadata entries other than key as
    custom metadata; and its response is the empty one. *)
Theorem create_stores (s : AliCloudOSS) (req : InvokeRequest) (st st' : State W)
    (resp : option InvokeResponse) :
  Binding.create env s req st = (Returns (resp, None), st') →
  ∃ pre b key options w,
    trace st' = (trace st ++ pre ++ [CallPutObject b key (Data req) options])%list
    ∧ bucket_PutObject env b key (Data req) options w = (None, world st')
    ∧ (∀ ev, ev ∈ pre → is_PutObject ev = false)
    ∧ (∀ val, Metadata req !! "key" = Some val → val ≠ "" → key = val)
    ∧ (∀ k v, oss.Meta k v ∈ options ↔ k ≠ "key" ∧ Metadata req !! k = Some v)
    ∧ (∀ o, o ∈ options → ∃ k v, o = oss.Meta k v)
    ∧ resp = Some InvokeResponse_zero.
Proof.
  intros (key & st1 & c & m & b & w1 & Hkey & Hc & Hm & Hb & Hput & Htr & ->)%create_key_inv.
  destruct (readKey req) as [val|] eqn:Hread.
  - destruct Hkey as [-> ->]. apply readKey_inv in Hread as [Hval Hne].
    exists [CallBucket c (Bucket m)], b, val, (Binding.metaOptions (Metadata req)), w1.
    split_and!; try done.
    + intros ev ->%list_elem_of_singleton. done.
    + intros val' ? ?. congruence.
    + apply metaOptions_elem.
    + apply metaOptions_only_Meta.
  - destruct Hkey as (buf & w0 & Hrand & Hlen & -> & ->). simpl in *.
    eexists [CallRandRead 16; CallDebugf _; CallBucket c (Bucket m)], b, _, _, w1.
    split_and!; try done.
    + rewrite Htr. by rewrite <- !app_assoc.
    + intros ev. rewrite !elem_of_cons, elem_of_nil. intros [->|[->|[->|[]]]]; done.
    + intros val Hval Hne. by rewrite (readKey_Some _ _ Hval Hne) in Hread.
    + apply metaOptions_elem.
    + apply metaOptions_only_Meta.
Qed.


(** C8: a List whose decoded query has maxKeys 0, as it has when the
    query names no maxkeys member, issues its listing call with
    maxKeys 1000, and runs exactly as a List whose query differs only
    in having maxKeys 1000. *)
Theorem list_default_maxKeys (s : AliCloudOSS) (req : InvokeRequest) (st : State W)
    (p : listPayload) :
  Unmarshal_listPayload (json_parse env (Data req)) listPayload_zero = (p, None) →
  MaxKeys p = 0%Z
  ∨ (∃ members, json_parse env (Data req) = Some (JObject members)
       ∧ ∀ kv, kv ∈ members → find_field listPayload_fields kv.1 ≠ Some FMaxKeys) →
  (∀ c m b w1,
     client s = Some c → metadata s = Some m →
     client_Bucket env c (Bucket m) (world st) = ((Some b, None), w1) →
     ∃ r st', Binding.list env s req st = (r, st')
       ∧ trace st' = (trace st ++
                        [CallBucket c (Bucket m);
                         CallListObjects b [oss.Prefix (Prefix p); oss.Marker (Marker p);
                                            oss.MaxKeys 1000; oss.Delimiter (Delimiter p)]])%list)
  ∧ (∀ req',
       Unmarshal_listPayload (json_parse env (Data req')) listPayload_zero
         = (set_MaxKeys 1000 p, None) →
       Binding.list env s req' st = Binding.list env s req st).
Proof.
  intros Hp Hzero.
  assert (MaxKeys p = 0%Z) as H0.
  { destruct Hzero as [|(members & Hparse & Hno)]; [done|].
    rewrite Hparse in Hp. simpl in Hp.
    pose proof (listPayload_members_MaxKeys members (listPayload_zero, None) Hno) as H.
    rewrite Hp in H. exact H. }
  split.
  - intros c m b w1 Hc Hm Hb. unfold Binding.list, Binding.getBucket.
    rewrite Hc, Hm, Hp. go_unfold. rewrite Hb. simpl. rewrite H0. simpl.
    destruct (bucket_ListObjects env b _ w1) as [[result [e|]] w2]; simpl.
    + eexists _, _. split; [reflexivity|]. simpl. by rewrite <- app_assoc.
    + destruct (json_Marshal_result env result) as [jsonResponse [e|]];
        (eexists _, _; split; [reflexivity|]; simpl; by rewrite <- app_assoc).
  - intros req' Hp'. unfold Binding.list. rewrite Hp, Hp', H0. reflexivity.
Qed.

(** C9: an Invoke whose operation is none of create, get, delete and
    list returns an error whose message ends with that operation, and
    calls nothing: the state is the one it started in. *)
Theorem Invoke_unsupported (s : AliCloudOSS) (req : InvokeRequest) (st : State W) :
  Operation req ≠ CreateOperation → Operation req ≠ GetOperation →
  Operation req ≠ DeleteOperation → Operation req ≠ ListOperation →
  ∃ err, Binding.Invoke env s req st = (Returns (None, Some err), st)
         ∧ Error_msg err
           = "aliyun oss binding error. unsupported operation " ++ Operation req.
Proof.
  intros Hc Hg Hd Hl. unfold Binding.Invoke.
  destruct (String.eqb_spec (Operation req) CreateOperation); [done|].
  destruct (String.eqb_spec (Operation req) GetOperation); [done|].
  destruct (String.eqb_spec (Operation req) DeleteOperation); [done|].
  destruct (String.eqb_spec (Operation req) ListOperation); [done|].
  eexists. split; reflexivity.
Qed.

(** C10: Init returns the error of the parse or of the client
    construction and then leaves the binding as it was; it sets the
    configuration and the client together, once both steps have
    succeeded; it does not panic. *)
Theorem Init_atomic (s : AliCloudOSS) (Properties : gmap string string) (st : State W) :
  match Binding.Init env s Properties st with
  | (Returns (s', Some e), _) =>
      s' = s
      ∧ ((parseMetadata Properties).2 = Some e
         ∨ ∃ m c w', parseMetadata Properties = (Some m, None)
             ∧ oss_New env (Endpoint m) (AccessKeyID m) (AccessKey m) (world st)
               = ((c, Some e), w'))
  | (Returns (s', None), st') =>
      ∃ m c, parseMetadata Properties = (Some m, None)
        ∧ oss_New env (Endpoint m) (AccessKeyID m) (AccessKey m) (world st)
          = ((c, None), world st')
        ∧ s' = {| metadata := Some m; client := c; logger := logger s |}
  | (Panics _, _) => False
  end.
Proof.
  unfold Binding.Init. destruct (parseMetadata_total Properties) as [m Hm]. rewrite Hm.
  unfold Binding.getClient. go_unfold.
  destruct (oss_New env (Endpoint m) (AccessKeyID m) (AccessKey m) (world st))
    as [[c [e|]] w'] eqn:Hnew; simpl.
  - split; [done|]. right. eauto.
  - eauto.
Qed.

End Properties.

(** ** The binding on the bucket in memory *)


(** The four tags and one more key: the fields are the four values. *)
Lemma parseMetadata_fields_witness :
  parseMetadata Memory.properties = (Some Memory.config, None).
Proof.
  destruct (parseMetadata_fields Memory.properties) as (m & -> & Hfield & _).
  do 2 f_equal. apply ossMetadata_ext. intros f.
  assert (∀ key, is_Some (Memory.properties !! key) → selects key = Some f → key = tag f)
    as Honly.
  { intros key [v Hv] Hsel. unfold Memory.properties in Hv.
    rewrite !lookup_insert_Some, lookup_empty in Hv.
    destruct Hv as [[<- _]|[_ [[<- _]|[_ [[<- _]|[_ [[<- _]|[_ [[<- _]|[_ ?]]]]]]]]]];
      try discriminate; vm_compute in Hsel; by injection Hsel as <-. }
  destruct f.
  - by destruct (Hfield FEndpoint "oss.example.com" eq_refl Honly) as [_ ->].
  - by destruct (Hfield FAccessKeyID "id" eq_refl Honly) as [_ ->].
  - by destruct (Hfield FAccessKey "secret" eq_refl Honly) as [_ ->].
  - by destruct (Hfield FBucket "bucket" eq_refl Honly) as [_ ->].
Defined.

(** [Init] on these properties, and on properties without an endpoint. *)
Example Init_run :
  Binding.Init Memory.env (NewAliCloudOSS (Some "alicloudoss")) Memory.properties
    (Memory.start Memory.empty)
  = (Returns (Memory.binding, None),
     {| world := Memory.empty; trace := [CallNew "oss.example.com" "id" "secret"] |}).
Proof. vm_compute. reflexivity. Qed.

Example Init_run_error :
  Binding.Init Memory.env (NewAliCloudOSS None) {[ "bucket" := "bucket" ]}
    (Memory.start Memory.empty)
  = (Returns (NewAliCloudOSS None, Some (ErrorString "oss: endpoint is empty")),
     {| world := Memory.empty; trace := [CallNew "" "" ""] |}).
Proof. vm_compute. reflexivity. Qed.

(** The Get of a key that the empty bucket does not hold. *)
Lemma get_not_found_witness :
  let req := Memory.request "get" [] [("key", "missing.txt")] in
  Metadata req !! "key" = Some "missing.txt"
  ∧ Binding.get Memory.env Memory.binding req (Memory.start Memory.empty)
    = (Returns (Some InvokeResponse_zero, None),
       {| world := Memory.empty;
          trace := [CallBucket 1%N "bucket"; CallGetObject 1%N "missing.txt"] |})
  ∧ RData InvokeResponse_zero = []
  ∧ RMetadata InvokeResponse_zero = ∅.
Proof.
  split; [reflexivity|].
  apply (get_not_found Memory.env Memory.binding _ (Memory.start Memory.empty)
           "missing.txt" 1%N Memory.config 1%N None "The specified key does not exist."
           Memory.empty Memory.empty);
    [reflexivity | discriminate | reflexivity | reflexivity | reflexivity | reflexivity].
Defined.

(** C2: the code does not do what the claim says.  A Get of a readable
    key whose fetch is refused with the service error 403 / AccessDenied
    does not return an error: the handler panics on the nil body, after
    the bucket and the fetch calls. *)
Theorem get_access_denied_panics :
  Binding.get Memory.env Memory.binding (Memory.request "get" [] [("key", "a.txt")])
    (Memory.start Memory.denied)
  = (Panics nil_dereference,
     {| world := Memory.denied;
        trace := [CallBucket 1%N "bucket"; CallGetObject 1%N "a.txt"] |}).
Proof.
  apply (get_service_error Memory.env Memory.binding _ (Memory.start Memory.denied)
           "a.txt" 1%N Memory.config 1%N 403%Z "AccessDenied"
           "You have no right to access this object." Memory.denied Memory.denied);
    try reflexivity; [discriminate | intros [? _]; discriminate].
Qed.


(** A request without a key, on a binding that was never initialised, as
    in the test of the repository. *)
Lemma get_delete_missing_key_witness :
  let req := Memory.request "get" [] [("owner", "bob")] in
  let st := Memory.start Memory.stocked in
  Metadata req !! "key" = None
  ∧ Binding.get Memory.env (NewAliCloudOSS None) req st =
      (Returns (None, Some (ErrorString "alicloud oss binding error: can't read key value")), st)
  ∧ Binding.delete Memory.env (NewAliCloudOSS None) req st =
      (Returns (None, Some (ErrorString "alicloud oss binding error: can't read key value")), st).
Proof.
  split; [reflexivity|].
  apply (get_delete_missing_key Memory.env). left. reflexivity.
Defined.

(** The scenario of the spec: a.txt, hello, owner bob. *)
Lemma create_stores_witness :
  let req := Memory.request "create" (Memory.data "hello") [("key", "a.txt"); ("owner", "bob")] in
  let st' := {| world := Memory.stocked;
                trace := [CallBucket 1%N "bucket";
                          CallPutObject 1%N "a.txt" (Memory.data "hello") [oss.Meta "owner" "bob"]] |} in
  Binding.create Memory.env Memory.binding req (Memory.start Memory.empty)
    = (Returns (Some InvokeResponse_zero, None), st')
  ∧ ∃ pre b key options w,
      trace st' = ([] ++ pre ++ [CallPutObject b key (Data req) options])%list
      ∧ bucket_PutObject Memory.env b key (Data req) options w = (None, world st')
      ∧ (∀ ev, ev ∈ pre → is_PutObject ev = false)
      ∧ (∀ val, Metadata req !! "key" = Some val → val ≠ "" → key = val)
      ∧ (∀ k v, oss.Meta k v ∈ options ↔ k ≠ "key" ∧ Metadata req !! k = Some v)
      ∧ (∀ o, o ∈ options → ∃ k v, o = oss.Meta k v)
      ∧ Some InvokeResponse_zero = Some InvokeResponse_zero.
Proof.
  assert (Binding.create Memory.env Memory.binding
            (Memory.request "create" (Memory.data "hello") [("key", "a.txt"); ("owner", "bob")])
            (Memory.start Memory.empty)
          = (Returns (Some InvokeResponse_zero, None),
             {| world := Memory.stocked;
                trace := [CallBucket 1%N "bucket";
                          CallPutObject 1%N "a.txt" (Memory.data "hello") [oss.Meta "owner" "bob"]] |}))
    as Hrun by (vm_compute; reflexivity).
  split; [exact Hrun|].
  exact (create_stores Memory.env _ _ _ _ _ Hrun).
Defined.


(** The Create of the witness above does succeed, under the identifier
    drawn from the random source. *)
Example create_generates_key_run :
  ∃ st', Binding.create Memory.env Memory.binding
           (Memory.request "create" (Memory.data "hello") [("owner", "bob")])
           (Memory.start Memory.empty)
         = (Returns (Some InvokeResponse_zero, None), st')
       ∧ last (trace st')
         = Some (CallPutObject 1%N "2a2a2a2a-2a2a-4a2a-aa2a-2a2a2a2a2a2a"
                   (Memory.data "hello") [oss.Meta "owner" "bob"]).
Proof. eexists. split; vm_compute; reflexivity. Qed.

(** A List with the query of an empty object, and one with maxkeys 1000. *)
Lemma list_default_maxKeys_witness :
  let req := Memory.request "list" Memory.query_empty [] in
  let req' := Memory.request "list" Memory.query_1000 [] in
  let st := Memory.start Memory.stocked in
  Unmarshal_listPayload (json_parse Memory.env (Data req)) listPayload_zero
    = (listPayload_zero, None)
  ∧ (∀ c m b w1,
       client Memory.binding = Some c → metadata Memory.binding = Some m →
       client_Bucket Memory.env c (Bucket m) (world st) = ((Some b, None), w1) →
       ∃ r st', Binding.list Memory.env Memory.binding req st = (r, st')
         ∧ trace st' = (trace st ++
                          [CallBucket c (Bucket m);
                           CallListObjects b [oss.Prefix ""; oss.Marker "";
                                              oss.MaxKeys 1000; oss.Delimiter ""]])%list)
  ∧ Binding.list Memory.env Memory.binding req' st
    = Binding.list Memory.env Memory.binding req st.
Proof.
  split; [reflexivity|].
  destruct (list_default_maxKeys Memory.env Memory.binding
              (Memory.request "list" Memory.query_empty [])
              (Memory.start Memory.stocked) listPayload_zero) as [Hcall Hsame];
    [reflexivity | left; reflexivity |].
  split; [exact Hcall|]. apply Hsame. reflexivity.
Defined.

(** An operation the binding does not have. *)
Lemma Invoke_unsupported_witness :
  let req := Memory.request "update" [] [("key", "a.txt")] in
  let st := Memory.start Memory.stocked in
  Operation req ≠ CreateOperation
  ∧ ∃ err, Binding.Invoke Memory.env Memory.binding req st = (Returns (None, Some err), st)
         ∧ Error_msg err = "aliyun oss binding error. unsupported operation " ++ Operation req.
Proof.
  split; [discriminate|].
  apply (Invoke_unsupported Memory.env); discriminate.
Defined.

(** * Further properties of the binding *)

Section Runs.
Context {W : Type}.

Lemma keeps_ret {A} (P : Event → Prop) (Q : A → Prop) (a : A) :
  Q a → keeps (W := W) P Q (mret a).
Proof.
  intros Ha st r st' [= <- <-]. split.
  - exists []. by rewrite app_nil_r.
  - by intros ? [= <-].
Qed.

Lemma keeps_panic {A} (P : Event → Prop) (Q : A → Prop) (why : string) :
  keeps (W := W) P Q (panic why).
Proof.
  intros st r st' [= <- <-]. split; [|done].
  exists []. by rewrite app_nil_r.
Qed.

Lemma keeps_call {A} (P : Event → Prop) (Q : A → Prop) (ev : Event) (f : W → A * W) :
  P ev → (∀ w, Q (f w).1) → keeps P Q (call ev f).
Proof.
  intros Hev HQ st r st'. unfold call. specialize (HQ (world st)).
  destruct (f (world st)) as [a w']. intros [= <- <-]. split.
  - exists [ev]. split; [done | by constructor].
  - by intros ? [= <-].
Qed.

Lemma keeps_bind {A B} (P : Event → Prop) (Q1 : A → Prop) (Q2 : B → Prop)
    (m : Go W A) (f : A → Go W B) :
  keeps P Q1 m → (∀ a, Q1 a → keeps P Q2 (f a)) → keeps P Q2 (m ≫= f).
Proof.
  intros Hm Hf st r st'. unfold mbind, Go_bind, go_bind.
  destruct (m st) as [[a|why] st1] eqn:Hrun.
  - destruct (Hm _ _ _ Hrun) as [(evs1 & Htr1 & Hevs1) Ha].
    intros Hk. destruct (Hf a (Ha a eq_refl) _ _ _ Hk) as [(evs2 & Htr2 & Hevs2) Hb].
    split; [|done]. exists (evs1 ++ evs2)%list. split.
    + by rewrite Htr2, Htr1, app_assoc.
    + by apply Forall_app.
  - destruct (Hm _ _ _ Hrun) as [Htr _]. intros [= <- <-]. done.
Qed.

Lemma keeps_defer {A} (P : Event → Prop) (Q : A → Prop) (d : Go W unit) (m : Go W A) :
  keeps P (λ _, True) d → keeps P Q m → keeps P Q (defer d m).
Proof.
  intros Hd Hm st r st'. unfold defer.
  destruct (m st) as [r1 st1] eqn:Hrun.
  destruct (Hm _ _ _ Hrun) as [(evs1 & Htr1 & Hevs1) Ha].
  destruct (d st1) as [[[]|why] st2] eqn:Hrund;
    destruct (Hd _ _ _ Hrund) as [(evs2 & Htr2 & Hevs2) _]; intros [= <- <-].
  - split; [|done]. exists (evs1 ++ evs2)%list. split.
    + by rewrite Htr2, Htr1, app_assoc.
    + by apply Forall_app.
  - split; [|done]. exists (evs1 ++ evs2)%list. split.
    + by rewrite Htr2, Htr1, app_assoc.
    + by apply Forall_app.
Qed.

Lemma keeps_weaken {A} (P P' : Event → Prop) (Q : A → Prop) (m : Go W A) :
  (∀ ev, P ev → P' ev) → keeps P Q m → keeps P' Q m.
Proof.
  intros HP Hm st r st' Hrun. destruct (Hm _ _ _ Hrun) as [(evs & Htr & Hevs) Ha].
  split; [|done]. exists evs. split; [done|]. eapply Forall_impl; eauto.
Qed.

End Runs.

Ltac keeps_go :=
  repeat (simpl;
    match goal with
    | |- keeps _ _ (mret _) => apply keeps_ret
    | |- keeps _ _ (panic _) => apply keeps_panic
    | |- keeps _ _ (call _ _) => apply keeps_call with (Q := λ _, True); [|done]
    | |- keeps _ _ (defer _ _) => apply keeps_defer
    | |- keeps _ _ (_ ≫= _) => apply keeps_bind with (Q1 := λ _, True); [|intros ? _]
    | |- keeps _ _ (match ?x with _ => _ end) => destruct x eqn:?
    end).

Section Handlers.
Context {W : Type} (env : Env W).

Lemma create_keeps (s : AliCloudOSS) (req : InvokeRequest) :
  keeps (calls_of CreateOperation req) handler_result (Binding.create env s req).
Proof.
  unfold Binding.create.
  apply keeps_bind with (Q1 := λ key, ∀ val, readKey req = Some val → key = val).
  - destruct (readKey req) as [val|] eqn:Hkey.
    + apply keeps_ret. by intros ? [= <-].
    + unfold uuid.New, uuid.NewRandom, Binding.Debugf. keeps_go; try done.
  - intros key Hkey. unfold Binding.getBucket. keeps_go; try done.
Qed.

Lemma get_keeps (s : AliCloudOSS) (req : InvokeRequest) :
  keeps (calls_of GetOperation req) handler_result (Binding.get env s req).
Proof.
  unfold Binding.get, Binding.getBucket, Binding.get_body, Binding.get_read.
  keeps_go; try done.
Qed.

Lemma delete_keeps (s : AliCloudOSS) (req : InvokeRequest) :
  keeps (calls_of DeleteOperation req) handler_result (Binding.delete env s req).
Proof.
  unfold Binding.delete, Binding.getBucket. keeps_go; try done.
Qed.

Lemma list_keeps (s : AliCloudOSS) (req : InvokeRequest) :
  keeps (calls_of ListOperation req) handler_result (Binding.list env s req).
Proof.
  unfold Binding.list, Binding.getBucket. keeps_go; try done.
Qed.

End Handlers.

Lemma prefix_append (p s : string) : String.prefix p (p ++ s) = true.
Proof.
  induction p as [|a p IH]; simpl; [by destruct s|].
  by destruct (ascii_dec a a).
Qed.

Section Dispatch.
Context {W : Type} (env : Env W).

Lemma Operations_elem (op : OperationKind) :
  op ∈ Binding.Operations ↔
  op = CreateOperation ∨ op = GetOperation ∨ op = DeleteOperation ∨ op = ListOperation.
Proof.
  unfold Binding.Operations. rewrite !elem_of_cons, elem_of_nil. tauto.
Qed.

(** [Invoke] hands an operation of [Operations] to its handler, and
    answers everything else itself. *)
Lemma Invoke_cases (s : AliCloudOSS) (req : InvokeRequest) :
  (Operation req ∈ Binding.Operations
   ∧ keeps (calls_of (Operation req) req) handler_result (Binding.Invoke env s req))
  ∨ ((Operation req ∉ Binding.Operations)
     ∧ Binding.Invoke env s req
       = mret (None, Some (ErrorString (unsupported_prefix ++ Operation req)))).
Proof.
  unfold Binding.Invoke. rewrite Operations_elem.
  destruct (String.eqb_spec (Operation req) CreateOperation) as [->|?].
  { left. split; [auto | apply create_keeps]. }
  destruct (String.eqb_spec (Operation req) GetOperation) as [->|?].
  { left. split; [auto | apply get_keeps]. }
  destruct (String.eqb_spec (Operation req) DeleteOperation) as [->|?].
  { left. split; [auto | apply delete_keeps]. }
  destruct (String.eqb_spec (Operation req) ListOperation) as [->|?].
  { left. split; [auto 6 | apply list_keeps]. }
  right. split; [tauto | reflexivity].
Qed.

(** X1: whatever happens, an Invoke only makes calls of its own
    operation, for its own request: a get or a list never writes or
    deletes, a delete touches the request's key only, a create puts
    nothing but the request's data, and no operation builds a client. *)
Theorem Invoke_footprint (s : AliCloudOSS) (req : InvokeRequest) (st : State W) :
  ∃ evs, trace (Binding.Invoke env s req st).2 = (trace st ++ evs)%list
         ∧ Forall (calls_of (Operation req) req) evs.
Proof.
  destruct (Binding.Invoke env s req st) as [r st'] eqn:Hrun. simpl.
  destruct (Invoke_cases s req) as [[_ Hkeeps]|[_ Heq]].
  - by destruct (Hkeeps _ _ _ Hrun).
  - rewrite Heq in Hrun. injection Hrun as <- <-. exists []. by rewrite app_nil_r.
Qed.

(** X2: an Invoke that returns gives either a response and no error, or
    no response and an error, never both and never neither; and the
    message of the error starts as one of the binding. *)
Theorem Invoke_result (s : AliCloudOSS) (req : InvokeRequest) (st : State W) :
  match (Binding.Invoke env s req st).1 with
  | Returns (Some _, None) => True
  | Returns (None, Some e) => binding_prefix (Error_msg e) = true
  | Returns _ => False
  | Panics _ => True
  end.
Proof.
  destruct (Binding.Invoke env s req st) as [r st'] eqn:Hrun. simpl.
  destruct (Invoke_cases s req) as [[_ Hkeeps]|[_ Heq]].
  - destruct (Hkeeps _ _ _ Hrun) as [_ Hres]. destruct r as [[resp err]|]; [|done].
    specialize (Hres _ eq_refl). destruct resp, err; try done. by destruct Hres.
  - rewrite Heq in Hrun. injection Hrun as <- <-. reflexivity.
Qed.

(** X3: the error of an Invoke is the one of an unsupported operation
    exactly when the operation is not one that [Operations] lists. *)
Theorem Invoke_unsupported_iff (s : AliCloudOSS) (req : InvokeRequest) (st : State W)
    (resp : option InvokeResponse) (e : error) :
  (Binding.Invoke env s req st).1 = Returns (resp, Some e) →
  (String.prefix unsupported_prefix (Error_msg e) = true)
  ↔ (Operation req ∉ Binding.Operations).
Proof.
  destruct (Binding.Invoke env s req st) as [r st'] eqn:Hrun. simpl. intros ->.
  destruct (Invoke_cases s req) as [[Hin Hkeeps]|[Hout Heq]].
  - destruct (Hkeeps _ _ _ Hrun) as [_ Hres]. specialize (Hres _ eq_refl).
    destruct resp; [done|]. destruct Hres as [_ Hres]. rewrite Hres. split; [done|].
    intros Hout. by destruct Hout.
  - rewrite Heq in Hrun. injection Hrun as <- <- _. split; [done|]. intros _.
    apply prefix_append.
Qed.

(** Every call for the bucket is made with the client of the binding,
    for the bucket of its configuration. *)
Lemma Invoke_configured (s : AliCloudOSS) (req : InvokeRequest) :
  keeps (configured_call s) (λ _, True) (Binding.Invoke env s req).
Proof.
  unfold Binding.Invoke, Binding.create, Binding.get, Binding.delete, Binding.list,
    Binding.getBucket, Binding.get_body, Binding.get_read, Binding.Debugf,
    uuid.New, uuid.NewRandom.
  keeps_go; try done; simpl; eauto.
Qed.

(** X4: Init makes one call, [oss.New] with the endpoint and the two
    keys it parsed, and its outcome is the outcome of that call: it
    fails only when [oss.New] fails, whatever the properties are, and it
    drops a client that comes with an error. *)
Theorem Init_outcome (s : AliCloudOSS) (Properties : gmap string string) (st : State W) :
  ∃ m, parseMetadata Properties = (Some m, None)
    ∧ Binding.Init env s Properties st =
      let '((c, err), w') :=
        oss_New env (Endpoint m) (AccessKeyID m) (AccessKey m) (world st) in
      (Returns (match err with
                | Some e => (s, Some e)
                | None => ({| metadata := Some m; client := c; logger := logger s |}, None)
                end),
       {| world := w';
          trace := trace st ++ [CallNew (Endpoint m) (AccessKeyID m) (AccessKey m)] |}).
Proof.
  destruct (parseMetadata_total Properties) as [m Hm]. exists m. split; [done|].
  unfold Binding.Init. rewrite Hm. unfold Binding.getClient. go_unfold.
  by destruct (oss_New env _ _ _ (world st)) as [[c [e|]] w'].
Qed.

(** X5: after an Init that succeeded, every call for the bucket that an
    Invoke makes is made with the client [oss.New] returned, for the
    bucket that the properties parse to. *)
Theorem Init_then_Invoke (s s' : AliCloudOSS) (Properties : gmap string string)
    (st st1 st2 : State W) (req : InvokeRequest) :
  Binding.Init env s Properties st = (Returns (s', None), st1) →
  ∃ m c w' evs,
    parseMetadata Properties = (Some m, None)
    ∧ oss_New env (Endpoint m) (AccessKeyID m) (AccessKey m) (world st) = ((c, None), w')
    ∧ trace (Binding.Invoke env s' req st2).2 = (trace st2 ++ evs)%list
    ∧ ∀ c' name, CallBucket c' name ∈ evs → c = Some c' ∧ name = Bucket m.
Proof.
  intros Hinit. destruct (Init_outcome s Properties st) as (m & Hm & Hrun).
  rewrite Hrun in Hinit.
  destruct (oss_New env _ _ _ (world st)) as [[c [e|]] w'] eqn:Hnew; [discriminate|].
  injection Hinit as <- <-.
  destruct (Binding.Invoke env _ req st2) as [r st3] eqn:Hinv.
  destruct (Invoke_configured _ req _ _ _ Hinv) as [(evs & Htr & Hevs) _].
  exists m, c, w', evs. split_and!; try done.
  intros c' name Hin. rewrite Forall_forall in Hevs. specialize (Hevs _ Hin).
  simpl in Hevs. destruct Hevs as [-> (m' & [= <-] & ->)]. done.
Qed.

(** X6: a binding without a client or without a configuration, as it
    is before Init, panics in a list, and in a get, a delete or a create
    of a key, before it has called anything. *)
Theorem Invoke_before_Init (s : AliCloudOSS) (req : InvokeRequest) (st : State W) :
  client s = None ∨ metadata s = None →
  Binding.list env s req st = (Panics nil_dereference, st)
  ∧ (∀ key, Metadata req !! "key" = Some key → key ≠ "" →
       Binding.get env s req st = (Panics nil_dereference, st)
       ∧ Binding.delete env s req st = (Panics nil_dereference, st)
       ∧ Binding.create env s req st = (Panics nil_dereference, st)).
Proof.
  intros Hnil.
  assert (Binding.getBucket env s = panic nil_dereference) as Hb.
  { unfold Binding.getBucket. destruct Hnil as [-> | ->]; [done|]. by destruct (client s). }
  split.
  - unfold Binding.list. by rewrite Hb.
  - intros key Hkey Hne. pose proof (readKey_Some _ _ Hkey Hne) as Hread.
    unfold Binding.get, Binding.delete, Binding.create. rewrite Hread, Hb. done.
Qed.

End Dispatch.

(** ** The options of an upload, counted *)

(** X7: every metadata entry other than key becomes one option of the
    upload, and none becomes two: the options are as many as the
    entries without key, and no option is repeated. *)
Theorem metaOptions_exact (Metadata : gmap string string) :
  NoDup (Binding.metaOptions Metadata)
  ∧ length (Binding.metaOptions Metadata) = size (base.delete "key" Metadata).
Proof.
  rewrite metaOptions_filter.
  assert (NoDup (List.filter (λ kv : string * string, negb (String.eqb kv.1 "key"))
                   (map_to_list Metadata))) as Hnd.
  { apply NoDup_ListNoDup, List.NoDup_filter, NoDup_ListNoDup, NoDup_map_to_list. }
  split.
  - apply NoDup_fmap_2; [|done]. intros [k1 v1] [k2 v2] [= -> ->]. done.
  - rewrite length_fmap. rewrite <- length_map_to_list.
    apply Permutation_length. apply NoDup_Permutation; [done | apply NoDup_map_to_list |].
    intros [k v]. rewrite elem_of_map_to_list, lookup_delete_Some.
    rewrite list_elem_of_In, filter_In, <- list_elem_of_In, elem_of_map_to_list. simpl.
    destruct (String.eqb_spec k "key") as [->|]; simpl; intuition (auto; discriminate).
Qed.

Section Outcomes.
Context {W : Type} (env : Env W).

(** X8: a Get whose fetch, read and metadata calls succeed returns the
    bytes read and, for every header, its values joined by single
    spaces, so a header of one value keeps that value; it makes its five
    calls in the order bucket, fetch, read, metadata, close, and what
    Close returns is dropped. *)
Theorem get_success (s : AliCloudOSS) (req : InvokeRequest) (st : State W)
    (key : string) (c : oss.Client) (m : ossMetadata) (b : oss.Bucket) (body : oss.Body)
    (data : bytes) (meta : gmap string (list string)) (w1 w2 w3 w4 : W) :
  Metadata req !! "key" = Some key → key ≠ "" →
  client s = Some c → metadata s = Some m →
  client_Bucket env c (Bucket m) (world st) = ((Some b, None), w1) →
  bucket_GetObject env b key w1 = ((Some body, None), w2) →
  body_ReadAll env body w2 = ((data, None), w3) →
  bucket_GetObjectDetailedMeta env b key w3 = ((meta, None), w4) →
  ∃ resp,
    Binding.get env s req st =
      (Returns (Some resp, None),
       {| world := (body_Close env body w4).2;
          trace := trace st ++ [CallBucket c (Bucket m); CallGetObject b key;
                                CallReadAll body; CallGetObjectDetailedMeta b key;
                                CallClose body] |})
    ∧ RData resp = data
    ∧ (∀ k, RMetadata resp !! k = (λ v, strings_Join v " ") <$> meta !! k)
    ∧ (∀ k v, meta !! k = Some [v] → RMetadata resp !! k = Some v)
    ∧ (∀ k v1 v2, meta !! k = Some [v1; v2] → RMetadata resp !! k = Some (v1 ++ " " ++ v2)).
Proof.
  intros Hk Hne Hc Hm Hb Hg Hr Hmeta. eexists. split.
  - unfold Binding.get. rewrite (readKey_Some _ _ Hk Hne).
    unfold Binding.getBucket. rewrite Hc, Hm. go_unfold. rewrite Hb. simpl.
    rewrite Hg. simpl. unfold Binding.get_body, Binding.get_read. go_unfold. simpl.
    rewrite Hr. simpl. rewrite Hmeta. simpl.
    destruct (body_Close env body w4) as [? w5]. simpl.
    by rewrite <- !app_assoc.
  - simpl. split_and!; [done | | |].
    + intros k. apply lookup_fmap.
    + intros k v Hv. by rewrite lookup_fmap, Hv.
    + intros k v1 v2 Hv. by rewrite lookup_fmap, Hv.
Qed.

(** X9: a Get whose read fails returns that error wrapped and no
    response; it does not ask for the metadata, and it closes the body. *)
Theorem get_read_error (s : AliCloudOSS) (req : InvokeRequest) (st : State W)
    (key : string) (c : oss.Client) (m : ossMetadata) (b : oss.Bucket) (body : oss.Body)
    (data : bytes) (e : error) (w1 w2 w3 : W) :
  Metadata req !! "key" = Some key → key ≠ "" →
  client s = Some c → metadata s = Some m →
  client_Bucket env c (Bucket m) (world st) = ((Some b, None), w1) →
  bucket_GetObject env b key w1 = ((Some body, None), w2) →
  body_ReadAll env body w2 = ((data, Some e), w3) →
  Binding.get env s req st =
    (Returns (None, Some (Errorf "alicloud oss binding error: error reading object : " e)),
     {| world := (body_Close env body w3).2;
        trace := trace st ++ [CallBucket c (Bucket m); CallGetObject b key;
                              CallReadAll body; CallClose body] |}).
Proof.
  intros Hk Hne Hc Hm Hb Hg Hr.
  unfold Binding.get. rewrite (readKey_Some _ _ Hk Hne).
  unfold Binding.getBucket. rewrite Hc, Hm. go_unfold. rewrite Hb. simpl.
  rewrite Hg. simpl. unfold Binding.get_body, Binding.get_read. go_unfold. simpl.
  rewrite Hr. simpl. destruct (body_Close env body w3) as [? w4]. simpl.
  by rewrite <- !app_assoc.
Qed.

(** X10: a Get whose metadata call fails returns that error wrapped and
    no response, though the object was read in full; the body is closed. *)
Theorem get_metadata_error (s : AliCloudOSS) (req : InvokeRequest) (st : State W)
    (key : string) (c : oss.Client) (m : ossMetadata) (b : oss.Bucket) (body : oss.Body)
    (data : bytes) (meta : oss.Header) (e : error) (w1 w2 w3 w4 : W) :
  Metadata req !! "key" = Some key → key ≠ "" →
  client s = Some c → metadata s = Some m →
  client_Bucket env c (Bucket m) (world st) = ((Some b, None), w1) →
  bucket_GetObject env b key w1 = ((Some body, None), w2) →
  body_ReadAll env body w2 = ((data, None), w3) →
  bucket_GetObjectDetailedMeta env b key w3 = ((meta, Some e), w4) →
  Binding.get env s req st =
    (Returns (None, Some (Errorf "alicloud oss binding error: error reading metadata : " e)),
     {| world := (body_Close env body w4).2;
        trace := trace st ++ [CallBucket c (Bucket m); CallGetObject b key;
                              CallReadAll body; CallGetObjectDetailedMeta b key;
                              CallClose body] |}).
Proof.
  intros Hk Hne Hc Hm Hb Hg Hr Hmeta.
  unfold Binding.get. rewrite (readKey_Some _ _ Hk Hne).
  unfold Binding.getBucket. rewrite Hc, Hm. go_unfold. rewrite Hb. simpl.
  rewrite Hg. simpl. unfold Binding.get_body, Binding.get_read. go_unfold. simpl.
  rewrite Hr. simpl. rewrite Hmeta. simpl.
  destruct (body_Close env body w4) as [? w5]. simpl.
  by rewrite <- !app_assoc.
Qed.

(** X11: a Delete of a key makes one delete call, for that key; it
    returns the empty response when the call succeeds, and otherwise the
    call's error wrapped, whatever the error is: a key that is not
    there is not treated apart, as it is in a Get. *)
Theorem delete_outcome (s : AliCloudOSS) (req : InvokeRequest) (st : State W)
    (key : string) (c : oss.Client) (m : ossMetadata) (b : oss.Bucket)
    (err : option error) (w1 w2 : W) :
  Metadata req !! "key" = Some key → key ≠ "" →
  client s = Some c → metadata s = Some m →
  client_Bucket env c (Bucket m) (world st) = ((Some b, None), w1) →
  bucket_DeleteObject env b key w1 = (err, w2) →
  Binding.delete env s req st =
    (Returns (match err with
              | None => (Some InvokeResponse_zero, None)
              | Some e => (None, Some (Errorf "alicloud oss binding error: error deleting : " e))
              end),
     {| world := w2;
        trace := trace st ++ [CallBucket c (Bucket m); CallDeleteObject b key] |}).
Proof.
  intros Hk Hne Hc Hm Hb Hd.
  unfold Binding.delete. rewrite (readKey_Some _ _ Hk Hne).
  unfold Binding.getBucket. rewrite Hc, Hm. go_unfold. rewrite Hb. simpl.
  rewrite Hd. simpl. rewrite <- app_assoc. by destruct err.
Qed.

(** X12: a Create of a key draws no identifier and logs nothing; it makes
    one put call, and returns the empty response when the call succeeds
    and otherwise the call's error wrapped. *)
Theorem create_outcome (s : AliCloudOSS) (req : InvokeRequest) (st : State W)
    (key : string) (c : oss.Client) (m : ossMetadata) (b : oss.Bucket)
    (err : option error) (w1 w2 : W) :
  Metadata req !! "key" = Some key → key ≠ "" →
  client s = Some c → metadata s = Some m →
  client_Bucket env c (Bucket m) (world st) = ((Some b, None), w1) →
  bucket_PutObject env b key (Data req) (Binding.metaOptions (Metadata req)) w1 = (err, w2) →
  Binding.create env s req st =
    (Returns (match err with
              | None => (Some InvokeResponse_zero, None)
              | Some e => (None, Some (Errorf "alicloud oss binding error: error putting object " e))
              end),
     {| world := w2;
        trace := trace st ++ [CallBucket c (Bucket m);
                              CallPutObject b key (Data req)
                                (Binding.metaOptions (Metadata req))] |}).
Proof.
  intros Hk Hne Hc Hm Hb Hp.
  unfold Binding.create. rewrite (readKey_Some _ _ Hk Hne).
  unfold Binding.getBucket. rewrite Hc, Hm. go_unfold. rewrite Hb. simpl.
  rewrite Hp. simpl. rewrite <- app_assoc. by destruct err.
Qed.

(** X13: when the call for the bucket fails, every handler returns that
    error wrapped right after it: a list does so without looking at its
    query, and a get, a delete and a create of a key without touching
    any object. *)
Theorem bucket_error_aborts (s : AliCloudOSS) (req : InvokeRequest) (st : State W)
    (c : oss.Client) (m : ossMetadata) (b : option oss.Bucket) (e : error) (w1 : W) :
  client s = Some c → metadata s = Some m →
  client_Bucket env c (Bucket m) (world st) = ((b, Some e), w1) →
  let st1 := {| world := w1; trace := trace st ++ [CallBucket c (Bucket m)] |} in
  Binding.list env s req st =
    (Returns (None, Some (Errorf "alicloud oss binding error: error getting bucket : " e)), st1)
  ∧ (∀ key, Metadata req !! "key" = Some key → key ≠ "" →
       Binding.get env s req st =
         (Returns (None, Some (Errorf "alicloud oss binding error: error getting bucket : " e)), st1)
       ∧ Binding.delete env s req st =
         (Returns (None, Some (Errorf "alicloud oss binding error: error getting bucket : " e)), st1)
       ∧ Binding.create env s req st =
         (Returns (None, Some (Errorf "alicloud oss binding error: error getting bucket failed : " e)), st1)).
Proof.
  intros Hc Hm Hb st1.
  assert (Binding.getBucket env s st = (Returns (b, Some e), st1)) as Hbucket.
  { unfold Binding.getBucket. rewrite Hc, Hm. unfold call. by rewrite Hb. }
  split.
  - unfold Binding.list. go_unfold. by rewrite Hbucket.
  - intros key Hk Hne. pose proof (readKey_Some _ _ Hk Hne) as Hread.
    unfold Binding.get, Binding.delete, Binding.create. rewrite Hread. go_unfold.
    by rewrite Hbucket.
Qed.

End Outcomes.

(** ** Decoding a query *)

Lemma listPayload_member_error (st : listPayload * option error) (kv : string * json) :
  st.2 ≠ None → (listPayload_member st kv).2 ≠ None.
Proof.
  intros Herr. unfold listPayload_member.
  destruct (find_field listPayload_fields kv.1) as [[]|]; try done;
    destruct kv.2 as [| |[z|]| | |]; simpl; try done;
    try (destruct st.2; done).
  destruct ((int32_min <=? z) && (z <=? int32_max))%Z; simpl; [done|].
  by destruct st.2.
Qed.

Lemma listPayload_members_error (members : list (string * json))
    (st : listPayload * option error) :
  st.2 ≠ None → (fold_left listPayload_member members st).2 ≠ None.
Proof.
  revert st. induction members as [|kv members IH]; intros st Herr; [done|].
  simpl. by apply IH, listPayload_member_error.
Qed.

Lemma listPayload_member_fits (st : listPayload * option error) (kv : string * json) :
  (listPayload_member st kv).2 = None ↔
  st.2 = None ∧ ∀ f, find_field listPayload_fields kv.1 = Some f → fits f kv.2 = true.
Proof.
  unfold listPayload_member.
  destruct (find_field listPayload_fields kv.1) as [f|]; [|naive_solver].
  destruct f, kv.2 as [| |[z|]| | |]; simpl;
    try destruct ((int32_min <=? z) && (z <=? int32_max))%Z eqn:?; simpl;
    destruct st.2; simpl; naive_solver.
Qed.

(** X14: a query that is a JSON object decodes without an error exactly
    when every member that selects a field of the query fits that
    field: a string or null for marker, prefix and delimiter, an integer
    within int32 or null for maxkeys. *)
Theorem Unmarshal_listPayload_fits (members : list (string * json)) (p : listPayload) :
  (Unmarshal_listPayload (Some (JObject members)) p).2 = None ↔
  ∀ k v f, (k, v) ∈ members → find_field listPayload_fields k = Some f → fits f v = true.
Proof.
  simpl.
  enough (∀ st : listPayload * option error,
    (fold_left listPayload_member members st).2 = None ↔
    st.2 = None
    ∧ ∀ k v f, (k, v) ∈ members → find_field listPayload_fields k = Some f → fits f v = true)
    as H by (rewrite H; naive_solver).
  induction members as [|[k0 v0] members IH]; intros st; simpl.
  - split; [|naive_solver]. intros ->. split; [done|]. intros k v f Hin.
    by apply elem_of_nil in Hin.
  - rewrite IH, listPayload_member_fits. simpl. split.
    + intros [[Hst H0] Hrest]. split; [done|]. intros k v f [[= -> ->]|Hin]%elem_of_cons; eauto.
    + intros [Hst Hall]. split_and!; [done | |].
      * intros f. apply Hall. by left.
      * intros k v f Hin. apply Hall. by right.
Qed.

Lemma listPayload_member_in_int32 (st : listPayload * option error) (kv : string * json) :
  in_int32 (MaxKeys st.1) → in_int32 (MaxKeys (listPayload_member st kv).1).
Proof.
  intros Hst. unfold listPayload_member.
  destruct (find_field listPayload_fields kv.1) as [[]|]; try done;
    destruct kv.2 as [| |[z|]| | |]; simpl; try done.
  destruct ((int32_min <=? z) && (z <=? int32_max))%Z eqn:Hz; simpl; [|done].
  unfold in_int32. lia.
Qed.

(** The decoded maxKeys is within int32. *)
Lemma Unmarshal_listPayload_in_int32 (doc : option json) (p : listPayload) :
  in_int32 (MaxKeys p) → in_int32 (MaxKeys (Unmarshal_listPayload doc p).1).
Proof.
  intros Hp. destruct doc as [[| | | | |members]|]; simpl; try done.
  enough (∀ st : listPayload * option error,
            in_int32 (MaxKeys st.1) →
            in_int32 (MaxKeys (fold_left listPayload_member members st).1))
    as H by by apply H.
  induction members as [|kv members IH]; intros st Hst; [done|].
  simpl. by apply IH, listPayload_member_in_int32.
Qed.

Section Listing.
Context {W : Type} (env : Env W).

(** X15: a List whose decoded query has a maxKeys other than 0 issues
    its listing call with that maxKeys as it is, also when it is
    negative, beside the prefix, the marker and the delimiter of the
    query. *)
Theorem list_passes_maxKeys (s : AliCloudOSS) (req : InvokeRequest) (st : State W)
    (p : listPayload) (c : oss.Client) (m : ossMetadata) (b : oss.Bucket) (w1 : W) :
  Unmarshal_listPayload (json_parse env (Data req)) listPayload_zero = (p, None) →
  MaxKeys p ≠ 0%Z →
  client s = Some c → metadata s = Some m →
  client_Bucket env c (Bucket m) (world st) = ((Some b, None), w1) →
  trace (Binding.list env s req st).2 =
    (trace st ++ [CallBucket c (Bucket m);
                  CallListObjects b [oss.Prefix (Prefix p); oss.Marker (Marker p);
                                     oss.MaxKeys (MaxKeys p); oss.Delimiter (Delimiter p)]])%list.
Proof.
  intros Hp Hne Hc Hm Hb. unfold Binding.list, Binding.getBucket.
  rewrite Hc, Hm, Hp. go_unfold. rewrite Hb. simpl.
  destruct (Z.eqb_spec (MaxKeys p) 0); [done|].
  destruct (bucket_ListObjects env b _ w1) as [[result [e|]] w2]; simpl.
  - by rewrite <- app_assoc.
  - destruct (json_Marshal_result env result) as [jsonResponse [e|]]; simpl;
      by rewrite <- app_assoc.
Qed.

(** X16: a List whose query does not decode returns the decoder's error
    wrapped, after the call for the bucket and without a listing call. *)
Theorem list_bad_query (s : AliCloudOSS) (req : InvokeRequest) (st : State W)
    (p : listPayload) (e : error) (c : oss.Client) (m : ossMetadata)
    (b : option oss.Bucket) (w1 : W) :
  Unmarshal_listPayload (json_parse env (Data req)) listPayload_zero = (p, Some e) →
  client s = Some c → metadata s = Some m →
  client_Bucket env c (Bucket m) (world st) = ((b, None), w1) →
  Binding.list env s req st =
    (Returns (None, Some (Errorf "aliyun oss binding error. list operation. cannot unmarshal json to blobs: " e)),
     {| world := w1; trace := trace st ++ [CallBucket c (Bucket m)] |}).
Proof.
  intros Hp Hc Hm Hb. unfold Binding.list, Binding.getBucket.
  rewrite Hc, Hm, Hp. go_unfold. by rewrite Hb.
Qed.

(** X17: a List whose query decodes makes one listing call; it returns
    the listing as [json.Marshal] writes it, with no metadata, and
    otherwise the error of the listing call or of [json.Marshal],
    wrapped. *)
Theorem list_outcome (s : AliCloudOSS) (req : InvokeRequest) (st : State W)
    (p : listPayload) (c : oss.Client) (m : ossMetadata) (b : oss.Bucket)
    (result : oss.ListObjectsResult) (err : option error) (w1 w2 : W) :
  Unmarshal_listPayload (json_parse env (Data req)) listPayload_zero = (p, None) →
  client s = Some c → metadata s = Some m →
  client_Bucket env c (Bucket m) (world st) = ((Some b, None), w1) →
  let options := [oss.Prefix (Prefix p); oss.Marker (Marker p);
                  oss.MaxKeys (if (MaxKeys p =? 0)%Z then 1000%Z else MaxKeys p);
                  oss.Delimiter (Delimiter p)] in
  bucket_ListObjects env b options w1 = ((result, err), w2) →
  Binding.list env s req st =
    (Returns (match err with
              | Some e =>
                  (None, Some (Errorf "aliyun oss binding error. error listing objects: " e))
              | None =>
                  match json_Marshal_result env result with
                  | (_, Some e) =>
                      (None, Some (Errorf "aliyun oss binding error. list operation. cannot marshal blobs to json: " e))
                  | (jsonResponse, None) =>
                      (Some {| RData := jsonResponse; RMetadata := ∅ |}, None)
                  end
              end),
     {| world := w2;
        trace := trace st ++ [CallBucket c (Bucket m); CallListObjects b options] |}).
Proof.
  intros Hp Hc Hm Hb options Hl. unfold Binding.list, Binding.getBucket.
  rewrite Hc, Hm, Hp. go_unfold. rewrite Hb. simpl.
  assert ([oss.Prefix (Prefix (if (MaxKeys p =? 0)%Z then set_MaxKeys maxKeys p else p));
           oss.Marker (Marker (if (MaxKeys p =? 0)%Z then set_MaxKeys maxKeys p else p));
           oss.MaxKeys (MaxKeys (if (MaxKeys p =? 0)%Z then set_MaxKeys maxKeys p else p));
           oss.Delimiter (Delimiter (if (MaxKeys p =? 0)%Z then set_MaxKeys maxKeys p else p))]
          = options) as ->.
  { unfold options. by destruct (MaxKeys p =? 0)%Z. }
  rewrite Hl. simpl. rewrite <- app_assoc.
  destruct err as [e|]; [done|].
  by destruct (json_Marshal_result env result) as [jsonResponse [e|]].
Qed.

(** X18: whatever the request and whatever happens, a List makes at most
    one listing call, and the maxKeys of that call is never 0 and is
    within int32. *)
Theorem list_maxKeys_bounds (s : AliCloudOSS) (req : InvokeRequest) (st : State W) :
  ∃ evs, trace (Binding.list env s req st).2 = (trace st ++ evs)%list
    ∧ (length (listings evs) ≤ 1)%nat
    ∧ ∀ options n, options ∈ listings evs → n ∈ MaxKeys_of options →
        n ≠ 0%Z ∧ in_int32 n.
Proof.
  pose proof (Unmarshal_listPayload_in_int32 (json_parse env (Data req)) listPayload_zero)
    as Hrange.
  unfold Binding.list, Binding.getBucket. go_unfold.
  destruct (client s) as [c|], (metadata s) as [m|];
    try (exists []; rewrite app_nil_r; simpl; split_and!; [done | lia | by intros ? ? ?%elem_of_nil]).
  destruct (client_Bucket env c (Bucket m) (world st)) as [[b [e|]] w1]; simpl.
  { exists [CallBucket c (Bucket m)]. simpl. split_and!; [done | lia | by intros ? ? ?%elem_of_nil]. }
  destruct (Unmarshal_listPayload _ _) as [p [e|]]; simpl.
  { exists [CallBucket c (Bucket m)]. simpl. split_and!; [done | lia | by intros ? ? ?%elem_of_nil]. }
  destruct b as [b|]; simpl.
  2:{ exists [CallBucket c (Bucket m)]. simpl. split_and!; [done | lia | by intros ? ? ?%elem_of_nil]. }
  specialize (Hrange ltac:(unfold in_int32, int32_min, int32_max; simpl; lia)). simpl in Hrange.
  match goal with |- context [CallListObjects b ?o] => set (options := o) end.
  assert (∀ n, n ∈ MaxKeys_of options → n ≠ 0%Z ∧ in_int32 n) as Hn.
  { intros n Hin. unfold options, MaxKeys_of in Hin. simpl in Hin.
    apply list_elem_of_singleton in Hin as ->.
    destruct (Z.eqb_spec (MaxKeys p) 0); simpl; [|done].
    split; [done|]. unfold in_int32, int32_min, int32_max, maxKeys. simpl. lia. }
  assert (∃ evs, ((trace st ++ [CallBucket c (Bucket m)])
                    ++ [CallListObjects b options])%list = (trace st ++ evs)%list
            ∧ (length (listings evs) ≤ 1)%nat
            ∧ ∀ opts n, opts ∈ listings evs → n ∈ MaxKeys_of opts → n ≠ 0%Z ∧ in_int32 n)
    as Hdone.
  { exists [CallBucket c (Bucket m); CallListObjects b options].
    split_and!; [by rewrite <- app_assoc | simpl; lia |].
    intros opts n Hin. simpl in Hin. apply list_elem_of_singleton in Hin as ->. apply Hn. }
  destruct (bucket_ListObjects env b options w1) as [[result [e|]] w2]; simpl;
    [exact Hdone|].
  destruct (json_Marshal_result env result) as [jsonResponse [e|]]; simpl; exact Hdone.
Qed.

End Listing.

(** ** Keys that select a field *)

(** X19: a key that is not a tag but folds to one, as Endpoint does to
    endpoint, sets the field of that tag; and when several keys of the
    map select one field, the field gets the value of the greatest of
    them in byte order, as JSON carries it. *)
Theorem parseMetadata_greatest_key (Properties : gmap string string)
    (f : ossField) (k v : string) :
  Properties !! k = Some v →
  selects k = Some f →
  (∀ k', is_Some (Properties !! k') → selects k' = Some f → string_leb k' k = true) →
  ∃ m, parseMetadata Properties = (Some m, None)
       ∧ ossMetadata_get f m = json_string v.
Proof.
  intros Hk Hsel Hmax.
  destruct (sorted_entries Properties) as (Hs & Hnd & Hin).
  rewrite parseMetadata_decode. eexists. split; [reflexivity|].
  apply decode_entries_greatest with (k := k); try done.
  - by apply Hin.
  - intros [k' v'] Hkv Hsel'. simpl in *. apply Hmax; [|done]. apply Hin in Hkv. eauto.
Qed.

(** ** The further properties on the two environments *)

(** An operation the binding does not have, and one it has. *)
Lemma Invoke_unsupported_iff_witness :
  let e := ErrorString "aliyun oss binding error. unsupported operation update" in
  (Binding.Invoke Memory.env Memory.binding (Memory.request "update" [] [])
     (Memory.start Memory.empty)).1 = Returns (None, Some e)
  ∧ ((String.prefix unsupported_prefix (Error_msg e) = true)
     ↔ ("update" ∉ Binding.Operations)).
Proof.
  split; [reflexivity|].
  apply (Invoke_unsupported_iff Memory.env Memory.binding (Memory.request "update" [] [])
           (Memory.start Memory.empty) None).
  reflexivity.
Defined.

(** Init on the properties of the bucket in memory, then a Get. *)
Lemma Init_then_Invoke_witness :
  let req := Memory.request "get" [] [("key", "a.txt")] in
  ∃ m c w' evs,
    parseMetadata Memory.properties = (Some m, None)
    ∧ oss_New Memory.env (Endpoint m) (AccessKeyID m) (AccessKey m) Memory.empty
      = ((c, None), w')
    ∧ trace (Binding.Invoke Memory.env Memory.binding req (Memory.start Memory.stocked)).2
      = ([] ++ evs)%list
    ∧ ∀ c' name, CallBucket c' name ∈ evs → c = Some c' ∧ name = Bucket m.
Proof.
  apply (Init_then_Invoke Memory.env (NewAliCloudOSS (Some "alicloudoss")) Memory.binding
           Memory.properties (Memory.start Memory.empty)
           {| world := Memory.empty; trace := [CallNew "oss.example.com" "id" "secret"] |}
           (Memory.start Memory.stocked)).
  vm_compute. reflexivity.
Defined.

(** A binding that was never initialised. *)
Lemma Invoke_before_Init_witness :
  let s := NewAliCloudOSS (Some "alicloudoss") in
  let req := Scripted.keyed "get" in
  Binding.list Memory.env s req (Memory.start Memory.stocked)
    = (Panics nil_dereference, Memory.start Memory.stocked)
  ∧ (∀ key, Metadata req !! "key" = Some key → key ≠ "" →
       Binding.get Memory.env s req (Memory.start Memory.stocked)
         = (Panics nil_dereference, Memory.start Memory.stocked)
       ∧ Binding.delete Memory.env s req (Memory.start Memory.stocked)
         = (Panics nil_dereference, Memory.start Memory.stocked)
       ∧ Binding.create Memory.env s req (Memory.start Memory.stocked)
         = (Panics nil_dereference, Memory.start Memory.stocked)).
Proof.
  apply (Invoke_before_Init Memory.env). left. reflexivity.
Defined.

(** A Get of an object with a header of one value and a header of two;
    Close fails, and the Get succeeds. *)
Lemma get_success_witness :
  ∃ resp,
    Binding.get (Scripted.env Scripted.fine) Memory.binding (Scripted.keyed "get") Scripted.start
    = (Returns (Some resp, None),
       {| world := tt;
          trace := [CallBucket 1%N "bucket"; CallGetObject 2%N "a.txt"; CallReadAll 3%N;
                    CallGetObjectDetailedMeta 2%N "a.txt"; CallClose 3%N] |})
    ∧ RData resp = Memory.data "hello"
    ∧ RMetadata resp !! "Content-Type" = Some "text/plain"
    ∧ RMetadata resp !! "Vary" = Some "Origin Accept".
Proof.
  destruct (get_success (Scripted.env Scripted.fine) Memory.binding (Scripted.keyed "get")
              Scripted.start "a.txt" 1%N Memory.config 2%N 3%N (Memory.data "hello")
              {[ "Content-Type" := ["text/plain"]; "Vary" := ["Origin"; "Accept"] ]}
              tt tt tt tt)
    as (resp & Hrun & Hdata & _ & Hone & Htwo);
    [reflexivity | discriminate | reflexivity | reflexivity | reflexivity | reflexivity
    | reflexivity | reflexivity |].
  exists resp. split_and!; [exact Hrun | exact Hdata | |].
  - apply Hone. reflexivity.
  - apply (Htwo "Vary" "Origin" "Accept"). reflexivity.
Defined.

Lemma get_read_error_witness :
  Binding.get (Scripted.env Scripted.broken_read) Memory.binding (Scripted.keyed "get")
    Scripted.start
  = (Returns (None, Some (Errorf "alicloud oss binding error: error reading object : "
                            (ErrorString "unexpected EOF"))),
     {| world := tt;
        trace := [CallBucket 1%N "bucket"; CallGetObject 2%N "a.txt"; CallReadAll 3%N;
                  CallClose 3%N] |}).
Proof.
  apply (get_read_error (Scripted.env Scripted.broken_read) Memory.binding
           (Scripted.keyed "get") Scripted.start "a.txt" 1%N Memory.config 2%N 3%N
           (Memory.data "he") (ErrorString "unexpected EOF") tt tt tt);
    [reflexivity | discriminate | reflexivity | reflexivity | reflexivity | reflexivity
    | reflexivity].
Defined.

Lemma get_metadata_error_witness :
  Binding.get (Scripted.env Scripted.refusing) Memory.binding (Scripted.keyed "get")
    Scripted.start
  = (Returns (None, Some (Errorf "alicloud oss binding error: error reading metadata : "
                            Scripted.refused)),
     {| world := tt;
        trace := [CallBucket 1%N "bucket"; CallGetObject 2%N "a.txt"; CallReadAll 3%N;
                  CallGetObjectDetailedMeta 2%N "a.txt"; CallClose 3%N] |}).
Proof.
  apply (get_metadata_error (Scripted.env Scripted.refusing) Memory.binding
           (Scripted.keyed "get") Scripted.start "a.txt" 1%N Memory.config 2%N 3%N
           (Memory.data "hello") ∅ Scripted.refused tt tt tt tt);
    [reflexivity | discriminate | reflexivity | reflexivity | reflexivity | reflexivity
    | reflexivity | reflexivity].
Defined.

(** A Delete of a key that is not there: the error comes back. *)
Lemma delete_outcome_witness :
  Binding.delete (Scripted.env Scripted.refusing) Memory.binding (Scripted.keyed "delete")
    Scripted.start
  = (Returns (None, Some (Errorf "alicloud oss binding error: error deleting : "
                            Memory.NoSuchKey)),
     {| world := tt;
        trace := [CallBucket 1%N "bucket"; CallDeleteObject 2%N "a.txt"] |}).
Proof.
  apply (delete_outcome (Scripted.env Scripted.refusing) Memory.binding
           (Scripted.keyed "delete") Scripted.start "a.txt" 1%N Memory.config 2%N
           (Some Memory.NoSuchKey) tt tt);
    [reflexivity | discriminate | reflexivity | reflexivity | reflexivity | reflexivity].
Defined.

Lemma create_outcome_witness :
  let req := Scripted.keyed "create" in
  Binding.create (Scripted.env Scripted.refusing) Memory.binding req Scripted.start
  = (Returns (None, Some (Errorf "alicloud oss binding error: error putting object "
                            Scripted.refused)),
     {| world := tt;
        trace := [] ++ [CallBucket 1%N "bucket";
                        CallPutObject 2%N "a.txt" (Data req)
                          (Binding.metaOptions (Metadata req))] |}).
Proof.
  apply (create_outcome (Scripted.env Scripted.refusing) Memory.binding
           (Scripted.keyed "create") Scripted.start "a.txt" 1%N Memory.config 2%N
           (Some Scripted.refused) tt tt);
    [reflexivity | discriminate | reflexivity | reflexivity | reflexivity | reflexivity].
Defined.

Lemma bucket_error_aborts_witness :
  let req := Scripted.keyed "list" in
  let e := ErrorString "oss: bucket name is invalid" in
  let st1 := {| world := tt; trace := [CallBucket 1%N "bucket"] |} in
  Binding.list (Scripted.env Scripted.no_bucket) Memory.binding req Scripted.start =
    (Returns (None, Some (Errorf "alicloud oss binding error: error getting bucket : " e)), st1)
  ∧ (∀ key, Metadata req !! "key" = Some key → key ≠ "" →
       Binding.get (Scripted.env Scripted.no_bucket) Memory.binding req Scripted.start =
         (Returns (None, Some (Errorf "alicloud oss binding error: error getting bucket : " e)), st1)
       ∧ Binding.delete (Scripted.env Scripted.no_bucket) Memory.binding req Scripted.start =
         (Returns (None, Some (Errorf "alicloud oss binding error: error getting bucket : " e)), st1)
       ∧ Binding.create (Scripted.env Scripted.no_bucket) Memory.binding req Scripted.start =
         (Returns (None, Some (Errorf "alicloud oss binding error: error getting bucket failed : " e)), st1)).
Proof.
  apply (bucket_error_aborts (Scripted.env Scripted.no_bucket) Memory.binding
           (Scripted.keyed "list") Scripted.start 1%N Memory.config None
           (ErrorString "oss: bucket name is invalid") tt);
    reflexivity.
Defined.

(** A query with maxkeys -5, under the name MaxKeys. *)
Lemma list_passes_maxKeys_witness :
  trace (Binding.list (Scripted.env Scripted.fine) Memory.binding (Scripted.keyed "list")
           Scripted.start).2
  = [CallBucket 1%N "bucket";
     CallListObjects 2%N [oss.Prefix "a"; oss.Marker ""; oss.MaxKeys (-5); oss.Delimiter ""]].
Proof.
  apply (list_passes_maxKeys (Scripted.env Scripted.fine) Memory.binding
           (Scripted.keyed "list") Scripted.start
           {| Marker := ""; Prefix := "a"; MaxKeys := -5; Delimiter := "" |}
           1%N Memory.config 2%N tt);
    [reflexivity | discriminate | reflexivity | reflexivity | reflexivity].
Defined.

(** A query that is not JSON. *)
Lemma list_bad_query_witness :
  Binding.list Memory.env Memory.binding (Memory.request "list" [] [])
    (Memory.start Memory.stocked)
  = (Returns (None, Some (Errorf "aliyun oss binding error. list operation. cannot unmarshal json to blobs: "
                            (ErrorString "invalid character looking for beginning of value"))),
     {| world := Memory.stocked; trace := [CallBucket 1%N "bucket"] |}).
Proof.
  apply (list_bad_query Memory.env Memory.binding (Memory.request "list" [] [])
           (Memory.start Memory.stocked) listPayload_zero
           (ErrorString "invalid character looking for beginning of value")
           1%N Memory.config (Some 1%N) Memory.stocked);
    reflexivity.
Defined.

Lemma list_outcome_witness :
  Binding.list (Scripted.env Scripted.fine) Memory.binding (Scripted.keyed "list")
    Scripted.start
  = (Returns (Some {| RData := Memory.data "[a.txt]"; RMetadata := ∅ |}, None),
     {| world := tt;
        trace := [CallBucket 1%N "bucket";
                  CallListObjects 2%N [oss.Prefix "a"; oss.Marker ""; oss.MaxKeys (-5);
                                       oss.Delimiter ""]] |}).
Proof.
  apply (list_outcome (Scripted.env Scripted.fine) Memory.binding (Scripted.keyed "list")
           Scripted.start
           {| Marker := ""; Prefix := "a"; MaxKeys := -5; Delimiter := "" |}
           1%N Memory.config 2%N
           {| oss.Objects := ["a.txt"]; oss.IsTruncated := false; oss.NextMarker := "" |}
           None tt tt);
    reflexivity.
Defined.

(** The key Endpoint of the repository's test. *)
Lemma parseMetadata_greatest_key_witness :
  ∃ m, parseMetadata test_properties = (Some m, None)
       ∧ ossMetadata_get FEndpoint m = json_string "endpoint".
Proof.
  apply (parseMetadata_greatest_key test_properties FEndpoint "Endpoint" "endpoint");
    [reflexivity | reflexivity |].
  intros k' [v Hv] Hsel. unfold test_properties in Hv.
  rewrite !lookup_insert_Some, lookup_singleton_Some in Hv.
  destruct Hv as [[<- _]|[_ [[<- _]|[_ [[<- _]|[_ [<- _]]]]]]];
    try reflexivity; vm_compute in Hsel; discriminate.
Defined.
